(** * Budget Sakkie: price sanitisation, validation and best-price aggregation

    A shallow embedding of the computational core of the two scripts

    - [scripts/data_extractor.py]   (class [GroceryDataExtractor]):
      [sanitize_price], [parse_availability], [validate_data_integrity];
    - [scripts/data_integration.py] (class [DataIntegrator]):
      [load_csv_data], [find_best_prices], [generate_mock_data_update],
      [get_retailer_color].

    Conventions of the embedding.

    - A Python [str] is a [string] whose characters are the code points
      0..255 (ASCII and Latin-1); [str.lower], [str.strip], [in] and
      [str.replace] are written out on that range.
    - A Python [float] is a primitive binary64 [float]; comparisons and
      arithmetic are the IEEE ones, NaN and signed zeros included.
    - A Python number that is either an [int] or a [float] ([savings],
      the bounds of [price_range], [avgSavings]) is a [number].
    - A [dict] is an association list in insertion order, which is the
      iteration order of [dict.items()] and [dict.values()].
    - Logging, file and network access are not modelled; the rows of a CSV
      file are the input of [load_csv_data]. *)

From Stdlib Require Import List String Ascii ZArith NArith Floats Bool Lia.
From Stdlib Require Import DecimalString DecimalZ Permutation.
Import ListNotations.

Set Warnings "-inexact-float".

Local Open Scope string_scope.
Local Open Scope Z_scope.

(* ================================================================== *)
(** * Python strings on the code points 0..255 *)

Module PyStr.

Definition code (c : ascii) : N := N_of_ascii c.

Definition between (lo hi : N) (c : ascii) : bool :=
  (N.leb lo (code c) && N.leb (code c) hi)%bool.

(** [str.isspace] of one character, which is also what [\s] matches in
    a [str] pattern: TAB..CR, FS..US, SPACE, NEL and NBSP. *)
Definition is_space (c : ascii) : bool :=
  (between 9 13 c || between 28 32 c
   || N.eqb (code c) 133 || N.eqb (code c) 160)%bool.

(** [\d] in a [str] pattern: the only decimal digits below 256 are
    [0]..[9]. *)
Definition is_digit (c : ascii) : bool := between 48 57 c.

Definition digit_value (c : ascii) : Z := Z.of_N (code c - 48).

(** [str.lower] of one character: [A]..[Z] and the Latin-1 capitals
    U+00C0..U+00DE except the multiplication sign U+00D7. *)
Definition is_upper (c : ascii) : bool :=
  (between 65 90 c || between 192 214 c || between 216 222 c)%bool.

Definition lower_char (c : ascii) : ascii :=
  if is_upper c then ascii_of_N (code c + 32) else c.

Fixpoint lower (s : string) : string :=
  match s with
  | EmptyString => EmptyString
  | String c r => String (lower_char c) (lower r)
  end.

Fixpoint lstrip_by (sp : ascii -> bool) (s : string) : string :=
  match s with
  | EmptyString => EmptyString
  | String c r => if sp c then lstrip_by sp r else s
  end.

Fixpoint rstrip_by (sp : ascii -> bool) (s : string) : string :=
  match s with
  | EmptyString => EmptyString
  | String c r =>
      match rstrip_by sp r with
      | EmptyString => if sp c then EmptyString else String c EmptyString
      | r' => String c r'
      end
  end.

(** [s.strip()] *)
Definition strip (s : string) : string :=
  rstrip_by is_space (lstrip_by is_space s).

Fixpoint starts_with (p s : string) : bool :=
  match p, s with
  | EmptyString, _ => true
  | String a p', String b s' => (Ascii.eqb a b && starts_with p' s')%bool
  | String _ _, EmptyString => false
  end.

(** [sub in s] *)
Fixpoint contains (sub s : string) : bool :=
  (starts_with sub s
   || match s with
      | EmptyString => false
      | String _ r => contains sub r
      end)%bool.

(** [s.replace(old, new)] for a one-character [old]. *)
Fixpoint replace_char (old : ascii) (new s : string) : string :=
  match s with
  | EmptyString => EmptyString
  | String c r =>
      if Ascii.eqb c old then new ++ replace_char old new r
      else String c (replace_char old new r)
  end.

(** [not s] *)
Definition is_empty (s : string) : bool :=
  match s with EmptyString => true | _ => false end.

(** [str(n)] for an [int]. *)
Definition of_int (n : Z) : string := NilZero.string_of_int (Z.to_int n).

(** Any character of the string passes the test. *)
Fixpoint any_char (f : ascii -> bool) (s : string) : bool :=
  match s with
  | EmptyString => false
  | String c r => (f c || any_char f r)%bool
  end.

End PyStr.

(* ================================================================== *)
(** * Python numbers *)

Module PyNum.

Inductive number : Type :=
| PyInt (z : Z)
| PyFloat (f : float).

(** The binary64 value nearest (ties to even) to the ratio [n / d] of two
    positive integers, infinite on overflow: the rounding that the
    conversion of a decimal literal and the true division of two [int]s
    perform. *)
Definition round_ratio (n d : positive) : float :=
  let '(q, e, l) := SFdiv_core_binary prec emax (Zpos n) 0 (Zpos d) 0 in
  SF2Prim (binary_round_aux prec emax false q e l).

(** [float(z)] for an [int]: the nearest binary64 value.  An [int] beyond
    the range of binary64, for which Python raises [OverflowError], is
    mapped to an infinity; no number of the scripts is that large. *)
Definition float_of_int (z : Z) : float :=
  SF2Prim (binary_normalize prec emax z 0 false).

(** The operand of a mixed operation, as a [float]. *)
Definition to_float (x : number) : float :=
  match x with
  | PyInt z => float_of_int z
  | PyFloat f => f
  end.

(** [x + y] *)
Definition add (x y : number) : number :=
  match x, y with
  | PyInt a, PyInt b => PyInt (a + b)
  | _, _ => PyFloat (to_float x + to_float y)
  end.

(** [sum(xs)]: the items are added to the [int] 0 from left to right, as
    the language defines it.  (CPython 3.12 and later carry a compensation
    term along a run of floats, which can change the last bit of a long
    sum; the statements below do not depend on it.) *)
Definition sum (xs : list number) : number :=
  fold_left add xs (PyInt 0).

(** [x == 0] *)
Definition is_zero (x : number) : bool :=
  match x with
  | PyInt z => Z.eqb z 0
  | PyFloat f => PrimFloat.eqb f 0
  end.

(** The quotient of two [int]s, rounded once; the divisor is not 0. *)
Definition int_ratio (a b : Z) : float :=
  match a, b with
  | Z0, Zpos _ => 0%float
  | Z0, _ => (- 0)%float
  | Zpos n, Zpos d | Zneg n, Zneg d => round_ratio n d
  | Zpos n, Zneg d | Zneg n, Zpos d => (- round_ratio n d)%float
  | _, Z0 => nan
  end.

(** [x / y], the true division; [None] is [ZeroDivisionError]. *)
Definition truediv (x y : number) : option number :=
  if is_zero y then None
  else match x, y with
       | PyInt a, PyInt b => Some (PyFloat (int_ratio a b))
       | _, _ => Some (PyFloat (to_float x / to_float y))
       end.

(** [min(xs, key=key)] and [max(xs, key=key)] on a non-empty sequence
    [x :: xs]: the candidate is replaced by a later item only when that
    item compares strictly below (above) it, so the first of several
    extremal items is returned. *)
Definition min_from {A} (key : A -> float) (x : A) (xs : list A) : A :=
  fold_left (fun best y => if (key y <? key best)%float then y else best) xs x.

(** [y > best] on floats is [best < y]. *)
Definition max_from {A} (key : A -> float) (x : A) (xs : list A) : A :=
  fold_left (fun best y => if (key best <? key y)%float then y else best) xs x.

(** [min(xs, key=key)]; [None] is the [ValueError] of an empty argument. *)
Definition py_min_by {A} (key : A -> float) (xs : list A) : option A :=
  match xs with
  | [] => None
  | x :: r => Some (min_from key x r)
  end.

(** [max(xs, key=key)] *)
Definition py_max_by {A} (key : A -> float) (xs : list A) : option A :=
  match xs with
  | [] => None
  | x :: r => Some (max_from key x r)
  end.

(** [min(xs)] and [max(xs)] *)
Definition py_min : list float -> option float := py_min_by (fun x => x).
Definition py_max : list float -> option float := py_max_by (fun x => x).

End PyNum.

(* ================================================================== *)
(** * The builtin [float(s)] on a string *)

Module PyFloat.
Import PyStr PyNum.

(** The white space that [float] strips at both ends. *)
Definition is_float_space (c : ascii) : bool :=
  (between 9 13 c || N.eqb (code c) 32
   || N.eqb (code c) 133 || N.eqb (code c) 160)%bool.

(** The longest prefix of digits, and what follows it. *)
Fixpoint take_digits (s : string) : string * string :=
  match s with
  | EmptyString => (EmptyString, EmptyString)
  | String c r =>
      if is_digit c
      then let (d, t) := take_digits r in (String c d, t)
      else (EmptyString, s)
  end.

(** Horner's rule on the digits of [s], starting from [acc]. *)
Fixpoint digits_acc (acc : Z) (s : string) : Z :=
  match s with
  | EmptyString => acc
  | String c r => digits_acc (10 * acc + digit_value c) r
  end.

(** The natural number that a string of digits denotes. *)
Definition digits_value (s : string) : Z := digits_acc 0 s.

(** An underscore is accepted between two digits only; the result is the
    text without its underscores. *)
Fixpoint drop_underscores (prev : ascii) (s : string) : option string :=
  match s with
  | EmptyString => if Ascii.eqb prev "_" then None else Some EmptyString
  | String c r =>
      if Ascii.eqb c "_"
      then if is_digit prev then drop_underscores c r else None
      else if (Ascii.eqb prev "_" && negb (is_digit c))%bool then None
           else option_map (String c) (drop_underscores c r)
  end.

(** An optional sign: whether it is a minus, and the rest of the text. *)
Definition sign (s : string) : bool * string :=
  match s with
  | String "-" r => (true, r)
  | String "+" r => (false, r)
  | _ => (false, s)
  end.

(** The value with its sign applied. *)
Definition with_sign (neg : bool) (f : float) : float :=
  if neg then (- f)%float else f.

(** The float nearest to [m * 10 ^ e] for a natural number [m]. *)
Definition scale10 (m e : Z) : float :=
  match m with
  | Zpos p =>
      if Z.leb 0 e
      then round_ratio (p * Z.to_pos (10 ^ e)) 1
      else round_ratio p (Z.to_pos (10 ^ (- e)))
  | _ => 0%float
  end.

(** The letter that starts an exponent. *)
Definition is_exp_mark (c : ascii) : bool :=
  (Ascii.eqb c "e" || Ascii.eqb c "E")%bool.

(** [sign? (digits ('.' digits?)? | '.' digits) ([eE] sign? digits)?],
    the whole string. *)
Definition parse_decimal (s : string) : option float :=
  let '(neg, body) := sign s in
  let '(ip, r1) := take_digits body in
  let '(fp, r2) :=
    match r1 with
    | String "." r => take_digits r
    | _ => (EmptyString, r1)
    end in
  if (is_empty ip && is_empty fp)%bool then None
  else
    let exponent :=
      match r2 with
      | EmptyString => Some 0
      | String c r3 =>
          if is_exp_mark c
          then let '(eneg, r4) := sign r3 in
               let '(ed, r5) := take_digits r4 in
               if (is_empty ed || negb (is_empty r5))%bool then None
               else Some (if eneg then - digits_value ed else digits_value ed)
          else None
      end in
    match exponent with
    | None => None
    | Some e =>
        Some (with_sign neg
                (scale10 (digits_value (ip ++ fp))
                         (e - Z.of_nat (String.length fp))))
    end.

(** [sign? ("inf" | "infinity" | "nan")], whatever the case of the letters. *)
Definition parse_inf_or_nan (s : string) : option float :=
  let '(neg, body) := sign s in
  let b := lower body in
  if (String.eqb b "inf" || String.eqb b "infinity")%bool
  then Some (with_sign neg infinity)
  else if String.eqb b "nan" then Some nan
  else None.

(** [float(s)]; [None] is [ValueError].  The white space at both ends is
    stripped, the underscores are checked and dropped, and what is left is
    read as a decimal number or else as an infinity or a NaN. *)
Definition py_float (s : string) : option float :=
  let t := rstrip_by is_float_space (lstrip_by is_float_space s) in
  match drop_underscores "000"%char t with
  | None => None
  | Some u =>
      match parse_decimal u with
      | Some f => Some f
      | None => parse_inf_or_nan u
      end
  end.

End PyFloat.

(* ================================================================== *)
(** * [scripts/data_extractor.py] *)

Module Extractor.
Import PyStr PyNum PyFloat.

(** The dataclass [Product].  [current_price] is annotated [float], and
    is what [sanitize_price] returns, an [Optional[float]]. *)
Record Product : Type := mkProduct {
  product_name : string;
  current_price : option float;
  availability_status : string;
  last_updated : string;
  retailer : string;
  category : string;
  unit : string;
  image_url : string;
  product_id : string
}.

(** ** [sanitize_price]: [re.search(r'R?\s*(\d+(?:\.\d{2})?)', text)] *)

(** [(?:\.\d{2})?] at the head of [s]: the text it consumes. *)
Definition match_fraction (s : string) : string :=
  match s with
  | String "." (String a (String b _)) =>
      if (is_digit a && is_digit b)%bool
      then String "." (String a (String b EmptyString))
      else EmptyString
  | _ => EmptyString
  end.

(** [(\d+(?:\.\d{2})?)] at the head of [s]: the text of group 1.  The
    digits are taken greedily, and the optional fraction can always match
    the empty string, so nothing is ever given back. *)
Definition match_group (s : string) : option string :=
  let (ds, rest) := take_digits s in
  if is_empty ds then None else Some (ds ++ match_fraction rest).

(** [\s*(...)] at the head of [s].  A white-space character is no digit,
    so giving some of the white space back cannot make the group match. *)
Definition match_spaces_group (s : string) : option string :=
  match_group (lstrip_by is_space s).

(** The whole pattern anchored at the head of [s]: [R?] first tries to
    consume an [R], and falls back to the empty match. *)
Definition match_here (s : string) : option string :=
  match s with
  | String "R" r =>
      match match_spaces_group r with
      | Some g => Some g
      | None => match_spaces_group s
      end
  | _ => match_spaces_group s
  end.

(** [re.search]: the match at the leftmost position that has one; the
    result is [group(1)]. *)
Fixpoint re_search (s : string) : option string :=
  match match_here s with
  | Some g => Some g
  | None =>
      match s with
      | EmptyString => None
      | String _ r => re_search r
      end
  end.

(** [None] is Python's [None]. *)
Definition sanitize_price (price_text : string) : option float :=
  if is_empty price_text then None
  else
    match re_search (replace_char "," EmptyString price_text) with
    | Some g =>
        match py_float g with
        | Some f => Some f
        | None => None          (* except ValueError *)
        end
    | None => None
    end.

(** ** [parse_availability] *)

(** [any(term in text for term in terms)] *)
Definition any_in (terms : list string) (text : string) : bool :=
  existsb (fun term => contains term text) terms.

Definition in_stock_terms : list string := ["in stock"; "available"; "yes"].
Definition low_stock_terms : list string := ["low stock"; "limited"; "few left"].
Definition out_of_stock_terms : list string :=
  ["out of stock"; "unavailable"; "sold out"].

(** The keyword lists are tried in the order of the [if] / [elif] chain. *)
Definition parse_availability (availability_text : string) : string :=
  if is_empty availability_text then "unknown"
  else
    let text := lower availability_text in
    if any_in in_stock_terms text then "in_stock"
    else if any_in low_stock_terms text then "low_stock"
    else if any_in out_of_stock_terms text then "out_of_stock"
    else "in_stock".

(** ** [validate_data_integrity] *)

Definition availability_enum : list string :=
  ["in_stock"; "low_stock"; "out_of_stock"; "unknown"].

(** The messages appended to [errors], by their kind and the values they
    are formatted from. *)
Inductive error : Type :=
| MissingName (i : nat)
| InvalidPrice (i : nat) (price : option float)
| MissingRetailer (i : nat)
| InvalidAvailability (i : nat) (status : string).

(** [not product.current_price or product.current_price <= 0] *)
Definition price_rejected (p : option float) : bool :=
  match p with
  | None => true
  | Some f => ((f =? 0)%float || (f <=? 0)%float)%bool
  end.

(** [s in l] for a list of strings. *)
Definition in_list (s : string) (l : list string) : bool :=
  existsb (String.eqb s) l.

(** The errors that one turn of the loop appends, for the record at
    position [i]. *)
Definition check_product (i : nat) (product : Product) : list error :=
  (if is_empty (product_name product) then [MissingName i] else [])
  ++ (if price_rejected (current_price product)
      then [InvalidPrice i (current_price product)] else [])
  ++ (if is_empty (retailer product) then [MissingRetailer i] else [])
  ++ (if negb (in_list (availability_status product) availability_enum)
      then [InvalidAvailability i (availability_status product)] else []).

(** The loop over [enumerate(products)], from position [i] on. *)
Fixpoint check_from (i : nat) (products : list Product) : list error :=
  match products with
  | [] => []
  | product :: rest => check_product i product ++ check_from (S i) rest
  end.

(** The result is the pair [(is_valid, errors)] with
    [is_valid = (len(errors) == 0)]. *)
Definition validate_data_integrity (products : list Product)
  : bool * list error :=
  let errors := check_from 0 products in
  (Nat.eqb (List.length errors) 0, errors).

End Extractor.

(* ================================================================== *)
(** * Python dictionaries with [str] keys, in insertion order *)

Module PyDict.

Definition dict (V : Type) : Type := list (string * V).

(** [d.get(k)] *)
Fixpoint get {V} (k : string) (d : dict V) : option V :=
  match d with
  | [] => None
  | (k', v) :: r => if String.eqb k k' then Some v else get k r
  end.

(** [k in d] *)
Definition mem {V} (k : string) (d : dict V) : bool :=
  match get k d with Some _ => true | None => false end.

(** [d[k] = v]: an existing key keeps its position, a new key goes last. *)
Fixpoint set {V} (k : string) (v : V) (d : dict V) : dict V :=
  match d with
  | [] => [(k, v)]
  | (k', v') :: r =>
      if String.eqb k k' then (k, v) :: r else (k', v') :: set k v r
  end.

(** [d.get(k, default)] *)
Definition get_default {V} (k : string) (default : V) (d : dict V) : V :=
  match get k d with Some v => v | None => default end.

Definition keys {V} (d : dict V) : list string := map fst d.
Definition values {V} (d : dict V) : list V := map snd d.

End PyDict.

(* ================================================================== *)
(** * [scripts/data_integration.py] *)

Module Integrator.
Import PyStr PyNum PyFloat PyDict.

(** A row of [csv.DictReader].  The cell [current_price] is text in the
    file ([None] when the line is too short to have it) and a [float]
    once [load_csv_data] has converted it, hence the parameter.  The
    columns read with [.get(key, default)] may be absent. *)
Record Row (P : Type) : Type := mkRow {
  product_id : string;
  product_name : string;
  current_price : P;
  availability_status : string;
  last_updated : string;
  retailer : string;
  category : option string;
  unit : option string;
  image_url : option string
}.
Arguments mkRow {P}.
Arguments product_id {P}.
Arguments product_name {P}.
Arguments current_price {P}.
Arguments availability_status {P}.
Arguments last_updated {P}.
Arguments retailer {P}.
Arguments category {P}.
Arguments unit {P}.
Arguments image_url {P}.

(** A row as read from the file, and a row as [load_csv_data] returns it. *)
Definition CsvRow : Type := Row (option string).
Definition Product : Type := Row float.

(** ** [load_csv_data] *)

(** [float(row['current_price'])], and [0.0] on [ValueError] (text that
    is no number) or [TypeError] (no text at all). *)
Definition convert_price (cell : option string) : float :=
  match cell with
  | Some s =>
      match py_float s with
      | Some f => f
      | None => 0%float
      end
  | None => 0%float
  end.

(** The body of the loop over the rows: the price cell is replaced by its
    conversion, and the row is appended whatever the conversion did. *)
Definition load_row (row : CsvRow) : Product :=
  mkRow (product_id row) (product_name row)
        (convert_price (current_price row))
        (availability_status row) (last_updated row) (retailer row)
        (category row) (unit row) (image_url row).

(** The loop over the rows that the reader yields, in order, in a run in
    which nothing raises up to the outer [except Exception]: the file opens
    and decodes, and every row has the key [current_price].  The function
    with that handler is [IntegratorRest.load_csv_file]. *)
Definition load_csv_data (rows : list CsvRow) : list Product :=
  map load_row rows.

(** ** [find_best_prices] *)

Record PriceRange : Type := mkRange { min : number; max : number }.

Record BestPrice : Type := mkBest {
  best_product : Product;
  all_prices : list Product;
  savings : number;
  price_range : PriceRange
}.

(** [product['product_name'].lower().strip()] *)
Definition normalized_name (product : Product) : string :=
  strip (lower (product_name product)).

(** One turn of the grouping loop: a name not seen before gets an empty
    list, and then the record is appended to the list of its name. *)
Definition group_step (product_groups : dict (list Product))
                      (product : Product) : dict (list Product) :=
  let normalized := normalized_name product in
  let product_groups :=
    if negb (mem normalized product_groups)
    then set normalized [] product_groups
    else product_groups in
  set normalized
      (get_default normalized [] product_groups ++ [product])%list
      product_groups.

(** [product_groups] at the end of the first loop. *)
Definition group_products (all_products : list Product)
  : dict (list Product) :=
  fold_left group_step all_products [].

(** [[p['current_price'] for p in products if p['current_price'] > 0]] *)
Definition positive_prices (products : list Product) : list float :=
  map current_price
      (filter (fun p => (0 <? current_price p)%float) products).

(** [m if prices else 0], for [m] the minimum or the maximum of [prices]. *)
Definition number_or_zero (x : option float) : number :=
  match x with
  | Some f => PyFloat f
  | None => PyInt 0
  end.

(** [max_price - min_price if len(prices) > 1 else 0]: [len(prices) > 1]
    holds when [prices] is [m0 :: more] with a non-empty [more], and then
    [max(prices)] and [min(prices)] start their scan from [m0]. *)
Definition savings_of (prices : list float) : number :=
  match prices with
  | m0 :: (_ :: _) as more =>
      PyFloat (max_from (fun x => x) m0 more - min_from (fun x => x) m0 more)
  | _ => PyInt 0
  end.

(** [{'min': min(prices) if prices else 0, 'max': max(prices) if prices
    else 0}] *)
Definition range_of (prices : list float) : PriceRange :=
  mkRange (number_or_zero (py_min prices)) (number_or_zero (py_max prices)).

(** The body of the second loop for a non-empty group [p0 :: rest]. *)
Definition best_price_of (p0 : Product) (rest : list Product) : BestPrice :=
  let products := p0 :: rest in
  let best := min_from current_price p0 rest in
  let prices := positive_prices products in
  mkBest best products (savings_of prices) (range_of prices).

(** One turn of the second loop; an empty group is skipped. *)
Definition best_step (best_prices : dict BestPrice)
                     (item : string * list Product) : dict BestPrice :=
  let (name, products) := item in
  match products with
  | [] => best_prices
  | p0 :: rest => set name (best_price_of p0 rest) best_prices
  end.

(** The second loop runs over [product_groups.items()]. *)
Definition find_best_prices (all_products : list Product) : dict BestPrice :=
  fold_left best_step (group_products all_products) [].

(** ** [get_retailer_color] and [generate_mock_data_update] *)

Definition colors : dict string :=
  [("Checkers", "#00A651"); ("Pick n Pay", "#E31837");
   ("Woolworths", "#00A86B"); ("Shoprite", "#FF6B35"); ("SPAR", "#006B3F")].

Definition get_retailer_color (retailer_name : string) : string :=
  get_default retailer_name "#6B7280" colors.

Definition retailer_mapping : dict string :=
  [("Checkers", "checkers"); ("Pick n Pay", "pick-n-pay");
   ("Woolworths", "woolworths"); ("Shoprite", "shoprite"); ("SPAR", "spar")].

(** The dictionaries of the presentation layer, one module for each
    shape so that the keys keep their names. *)
Module ProductEntry.
Record t : Type := mk {
  id : string; name : string; brand : string; category : string;
  barcode : string; image : string; unit : string; unitSize : string
}.
End ProductEntry.

Module Location.
Record t : Type := mk {
  id : string; name : string; address : string; distance : float;
  coordinates : list float; openingHours : string
}.
End Location.

Module Retailer.
Record t : Type := mk {
  id : string; name : string; logo : string; color : string;
  locations : list Location.t
}.
End Retailer.

Module PriceEntry.
Record t : Type := mk {
  id : string; productId : string; retailer : Retailer.t;
  price : float; onSale : bool; lastUpdated : string;
  availability : string
}.
End PriceEntry.

Module Summary.
Record t : Type := mk {
  totalProducts : Z; totalPrices : Z; avgSavings : number
}.
End Summary.

Module MockData.
Record t : Type := mk {
  products : list ProductEntry.t; prices : list PriceEntry.t;
  lastUpdated : string; summary : Summary.t
}.
End MockData.

(** [len(xs)] *)
Definition len {A} (xs : list A) : Z := Z.of_nat (List.length xs).

Definition product_entry (product_id : Z) (best_product : Product)
  : ProductEntry.t :=
  ProductEntry.mk
    (of_int product_id)
    (product_name best_product)
    "Generic"
    (match category best_product with Some c => c | None => "General" end)
    ("600123456789" ++ of_int product_id)
    (match image_url best_product with
     | Some u => u
     | None =>
         "https://images.pexels.com/photos/" ++ of_int (300000 + product_id)
         ++ "/product.jpg?auto=compress&cs=tinysrgb&w=300&h=200&fit=crop"
     end)
    "each"
    (match unit best_product with Some u => u | None => "each" end).

Definition price_entry (product_id price_id : Z) (product : Product)
  : PriceEntry.t :=
  let retailer_id := get_default (retailer product) "unknown" retailer_mapping in
  PriceEntry.mk
    (of_int product_id ++ "-" ++ of_int price_id)
    (of_int product_id)
    (Retailer.mk
       retailer_id
       (retailer product)
       ("https://images.pexels.com/photos/" ++ of_int (400000 + price_id)
        ++ "/logo.jpg?auto=compress&cs=tinysrgb&w=100&h=100&fit=crop")
       (get_retailer_color (retailer product))
       [Location.mk (retailer_id ++ "-1")
                    (retailer product ++ " Centurion")
                    "Centurion Mall, Centurion"
                    2.3%float
                    [(-25.8553)%float; 28.1881%float]
                    "Mon-Sun: 8:00-21:00"])
    (current_price product)
    false
    (last_updated product)
    (replace_char "_" "-" (availability_status product)).

(** The variables that the two nested loops update. *)
Record LoopState : Type := mkState {
  updated_products : list ProductEntry.t;
  updated_prices : list PriceEntry.t;
  next_product_id : Z;
  next_price_id : Z
}.

(** One turn of the inner loop, over [price_data['all_prices']]. *)
Definition price_step (st : LoopState) (product : Product) : LoopState :=
  mkState (updated_products st)
          (updated_prices st
           ++ [price_entry (next_product_id st) (next_price_id st) product])%list
          (next_product_id st)
          (next_price_id st + 1).

(** One turn of the outer loop, over the first 20 items. *)
Definition product_step (st : LoopState) (item : string * BestPrice)
  : LoopState :=
  let price_data := snd item in
  let st1 :=
    mkState (updated_products st
             ++ [product_entry (next_product_id st) (best_product price_data)])%list
            (updated_prices st)
            (next_product_id st)
            (next_price_id st) in
  let st2 := fold_left price_step (all_prices price_data) st1 in
  mkState (updated_products st2) (updated_prices st2)
          (next_product_id st2 + 1) (next_price_id st2).

Definition initial_state : LoopState := mkState [] [] 1 1.

(** [sum(...) / len(best_prices) if best_prices else 0]; [None] is
    [ZeroDivisionError]. *)
Definition average_savings (best_prices : dict BestPrice) : option number :=
  match best_prices with
  | _ :: _ =>
      truediv (sum (map savings (values best_prices)))
              (PyInt (len best_prices))
  | [] => Some (PyInt 0)
  end.

(** [now] is the text of [datetime.now().isoformat()]. *)
Definition generate_mock_data_update (now : string)
                                     (best_prices : dict BestPrice)
  : option MockData.t :=
  let st := fold_left product_step (firstn 20 best_prices) initial_state in
  match average_savings best_prices with
  | Some avg =>
      Some (MockData.mk
              (updated_products st)
              (updated_prices st)
              now
              (Summary.mk (len (updated_products st))
                          (len (updated_prices st))
                          avg))
  | None => None
  end.

End Integrator.

(* ================================================================== *)
(** * More of the Python runtime *)

Module PyMore.
Import PyStr PyNum.

(** [s[:n]] *)
Fixpoint take (n : nat) (s : string) : string :=
  match n, s with
  | O, _ => EmptyString
  | S _, EmptyString => EmptyString
  | S m, String c r => String c (take m r)
  end.

(** [re.sub(r'\s+', ' ', s)]: every longest run of white space becomes one
    space.  [in_run] tells that the character before [s] was white space. *)
Fixpoint collapse_spaces (in_run : bool) (s : string) : string :=
  match s with
  | EmptyString => EmptyString
  | String c r =>
      if is_space c
      then if in_run then collapse_spaces true r
           else String " " (collapse_spaces true r)
      else String c (collapse_spaces false r)
  end.

(** [re.sub(r'[^a-z0-9]', '-', s)] *)
Definition is_id_char (c : ascii) : bool :=
  (between 97 122 c || is_digit c)%bool.

Fixpoint dash_others (s : string) : string :=
  match s with
  | EmptyString => EmptyString
  | String c r => String (if is_id_char c then c else "-"%char) (dash_others r)
  end.

(** The order of an [int] and a [float], which Python decides on the exact
    values; [None] when the float is NaN. *)
Definition compare_int_float (z : Z) (f : float) : option comparison :=
  match Prim2SF f with
  | S754_nan => None
  | S754_infinity s => Some (if s then Gt else Lt)
  | S754_zero _ => Some (Z.compare z 0)
  | S754_finite s m e =>
      let v := if s then Zneg m else Zpos m in
      Some (if Z.leb 0 e then Z.compare z (v * 2 ^ e)
            else Z.compare (z * 2 ^ (- e)) v)
  end.

(** [x < y] *)
Definition ltb (x y : number) : bool :=
  match x, y with
  | PyInt a, PyInt b => Z.ltb a b
  | PyFloat f, PyFloat g => PrimFloat.ltb f g
  | PyInt a, PyFloat g =>
      match compare_int_float a g with Some Lt => true | _ => false end
  | PyFloat f, PyInt b =>
      match compare_int_float b f with Some Gt => true | _ => false end
  end.

(** [x > y] *)
Definition gtb (x y : number) : bool := ltb y x.

End PyMore.

(* ================================================================== *)
(** * More of [scripts/data_extractor.py] *)

Module ExtractorRest.
Import PyStr PyNum PyFloat PyDict PyMore Extractor.

(** ** [sanitize_text] *)

Definition sanitize_text (text : string) : string :=
  if is_empty text then EmptyString
  else take 200 (collapse_spaces false (strip text)).

(** ** [generate_product_id]; [timestamp] is [int(time.time())]. *)

Definition generate_product_id (retailer product_name : string)
                               (timestamp : Z) : string :=
  let clean_name := dash_others (lower product_name) in
  let clean_retailer := dash_others (lower retailer) in
  clean_retailer ++ "-" ++ clean_name ++ "-" ++ of_int timestamp.

(** ** [extract_all_data] *)

(** What a run has done so far: the products merged, the CSV files saved
    and the error files written, by retailer key. *)
Record Extraction : Type := mkExtraction {
  all_products : list Product;
  saved : list (string * list Product);
  error_files : list (string * list error)
}.

(** One turn of the loop over the retailers.  [products] is what
    [scrape_retailer_products] returned for [retailer_key]; an empty batch
    is passed over. *)
Definition extract_step (run : Extraction) (batch : string * list Product)
  : Extraction :=
  let (retailer_key, products) := batch in
  match products with
  | [] => run
  | _ =>
      let (is_valid, errors) := validate_data_integrity products in
      if is_valid
      then mkExtraction (all_products run ++ products)%list
                        (saved run ++ [(retailer_key, products)])%list
                        (error_files run)
      else mkExtraction (all_products run) (saved run)
                        (error_files run ++ [(retailer_key, errors)])%list
  end.

(** The loop of [extract_all_data] over what was scraped for each retailer,
    in the order of [self.retailers]. *)
Definition extract_all_data (scraped : list (string * list Product))
  : Extraction :=
  fold_left extract_step scraped (mkExtraction [] [] []).

(** ** [generate_summary_report]: the counts *)

(** [if k not in counts: counts[k] = 0] and then [counts[k] += 1]. *)
Definition increment (k : string) (counts : dict Z) : dict Z :=
  let counts := if negb (mem k counts) then set k 0 counts else counts in
  set k (get_default k 0 counts + 1) counts.

(** [summary["retailers"]] and [summary["categories"]] as the loop over the
    products leaves them. *)
Definition count_step (counts : dict Z * dict Z) (product : Product)
  : dict Z * dict Z :=
  (increment (retailer product) (fst counts),
   increment (category product) (snd counts)).

Definition summary_counts (products : list Product) : dict Z * dict Z :=
  fold_left count_step products ([], []).

End ExtractorRest.

(* ================================================================== *)
(** * More of [scripts/data_integration.py] *)

Module IntegratorRest.
Import PyStr PyNum PyFloat PyDict PyMore Integrator.

(** ** [find_latest_csv] *)

(** A file of a retailer's directory, with [stat().st_mtime]. *)
Module File.
Record t : Type := mk { name : string; st_mtime : float }.
End File.

(** [retailer_dir] is [None] when the directory does not exist, and
    otherwise the files that [glob("*_prices.csv")] lists, in its order. *)
Definition find_latest_csv (retailer_dir : option (list File.t))
  : option File.t :=
  match retailer_dir with
  | None => None
  | Some csv_files =>
      match csv_files with
      | [] => None
      | _ => py_max_by File.st_mtime csv_files
      end
  end.

(** ** [load_csv_data] with its outer handler *)

(** What one turn of the reading gives to [load_csv_data]: a row whose
    dictionary has the key [current_price], or an exception that the inner
    handler does not catch, so that it reaches [except Exception]: [open]
    fails, the reader fails to decode or to parse the file, or the header
    has no column [current_price] and [row['current_price']] raises
    [KeyError]. *)
Inductive Reading : Type :=
| RowRead (row : CsvRow)
| Raised.

(** [load_csv_data] on the reading of a file: the rows are loaded one by
    one; at the first exception the handler logs it, and the products
    loaded so far are returned. *)
Fixpoint load_csv_file (reading : list Reading) : list Product :=
  match reading with
  | [] => []
  | RowRead row :: rest => load_row row :: load_csv_file rest
  | Raised :: _ => []
  end.

(** ** [integrate_data]: the merge *)

(** The loop over the retailers: [latest] holds, for each retailer, the
    reading of its latest CSV file, or [None] when [find_latest_csv] found
    none. *)
Definition merge_step (all_products : list Product)
                      (latest : option (list Reading)) : list Product :=
  match latest with
  | Some reading => (all_products ++ load_csv_file reading)%list
  | None => all_products
  end.

Definition merge_latest (latest : list (option (list Reading)))
  : list Product :=
  fold_left merge_step latest [].

(** ** [generate_integration_report]: [best_deals] *)

Module Deal.
Record t : Type := mk {
  product : string; best_price : float; best_retailer : string;
  savings : number; price_range : PriceRange
}.
End Deal.

(** One turn of the loop over the ten first sorted deals. *)
Definition deal_step (best_deals : list Deal.t) (item : string * BestPrice)
  : list Deal.t :=
  let (product_name, data) := item in
  if gtb (savings data) (PyInt 0)
  then (best_deals
        ++ [Deal.mk product_name
                    (current_price (best_product data))
                    (retailer (best_product data))
                    (savings data)
                    (price_range data)])%list
  else best_deals.

(** The loop over [sorted_deals[:10]].  [sorted_deals] is what
    [sorted(best_prices.items(), key=..., reverse=True)] returned: the items
    of [best_prices] in another order, which is all that is used of it
    here; [sorted] is left out, since the order that it gives to keys that
    are NaN is a matter of its algorithm. *)
Definition best_deals (sorted_deals : list (string * BestPrice))
  : list Deal.t :=
  fold_left deal_step (firstn 10 sorted_deals) [].

End IntegratorRest.

(* ================================================================== *)
(** * The vocabulary of the statements *)

Local Open Scope list_scope.

Section AggregationTerms.
Import PyStr PyNum PyFloat PyDict Integrator.
Local Open Scope float_scope.

(** What the scan of [min] maintains about its candidate [b], found at
    position [i] of the items [seen] so far. *)
Definition min_candidate {A : Type} (key : A -> float)
                         (seen : list A) (i : nat) (b : A) : Prop :=
  nth_error seen i = Some b
  /\ (forall p, In p seen -> (key p <? key b) = false)
  /\ (forall j q, (j < i)%nat -> nth_error seen j = Some q ->
                  (key q =? key b) = false).

(** The scan of [max]: its candidate is an item seen, and it compares
    strictly below none of them. *)
Definition max_candidate {A : Type} (key : A -> float)
                         (seen : list A) (b : A) : Prop :=
  In b seen /\ (forall p, In p seen -> (key b <? key p) = false).

(** The records of [seen] whose normalised name is [k], in order. *)
Definition group_of (k : string) (seen : list Product) : list Product :=
  filter (fun p => String.eqb (normalized_name p) k) seen.

(** A list as the value of a key: a key is present only with a non-empty
    list. *)
Definition non_empty {A} (l : list A) : option (list A) :=
  match l with
  | [] => None
  | _ => Some l
  end.

(** The keys of [l] in the order of their first occurrence. *)
Fixpoint first_seen (seen : list string) (l : list string) : list string :=
  match l with
  | [] => []
  | k :: r =>
      if existsb (String.eqb k) seen then first_seen seen r
      else k :: first_seen (seen ++ [k]) r
  end.

(** What the loop maintains: the dictionary holds, for every key, the
    records seen so far with that key, and has no entry for a key that no
    record has. *)
Definition groups_of (seen : list Product) (g : dict (list Product)) : Prop :=
  NoDup (keys g) /\ forall k, get k g = non_empty (group_of k seen).

(** What one group contributes to [best_prices]. *)
Definition emit (item : string * list Product) : dict BestPrice :=
  match snd item with
  | [] => []
  | p0 :: rest => [(fst item, best_price_of p0 rest)]
  end.

(** A run of [find_best_prices], statement by statement: the first loop
    with the records still to group and [product_groups], the second loop
    with the groups still to visit and [best_prices], and the return. *)
Inductive run_state : Type :=
| Grouping (todo : list Product) (product_groups : dict (list Product))
| Emitting (todo : list (string * list Product)) (best_prices : dict BestPrice)
| Returned (best_prices : dict BestPrice).

Inductive run_step : run_state -> run_state -> Prop :=
| step_group product todo groups :
    run_step (Grouping (product :: todo) groups)
             (Grouping todo (group_step groups product))
| step_items groups :
    run_step (Grouping [] groups) (Emitting groups [])
| step_emit item todo best_prices :
    run_step (Emitting (item :: todo) best_prices)
             (Emitting todo (best_step best_prices item))
| step_return best_prices :
    run_step (Emitting [] best_prices) (Returned best_prices).

(** Zero or more steps. *)
Inductive run_steps : run_state -> run_state -> Prop :=
| steps_none st : run_steps st st
| steps_more st st' st'' :
    run_step st st' -> run_steps st' st'' -> run_steps st st''.

(** A call of [find_best_prices] on [all_products] returns [best_prices]. *)
Definition returns (all_products : list Product)
                   (best_prices : dict BestPrice) : Prop :=
  run_steps (Grouping all_products []) (Returned best_prices).

(** The records that enter [savings] and [price_range]. *)
Definition priced (products : list Product) : list Product :=
  filter (fun p => 0 <? current_price p) products.

(** [float(row['current_price'])] raises. *)
Definition price_unparsed (row : CsvRow) : Prop :=
  match current_price row with
  | Some cell => PyFloat.py_float cell = None
  | None => True
  end.

(** The entries that the loops append, in closed form. *)
Fixpoint products_from (product_id : Z) (items : list (string * BestPrice))
  : list ProductEntry.t :=
  match items with
  | [] => []
  | item :: rest =>
      product_entry product_id (best_product (snd item))
      :: products_from (product_id + 1) rest
  end.

(** The price entries of one group, numbered from [price_id]. *)
Fixpoint prices_of (product_id price_id : Z) (products : list Product)
  : list PriceEntry.t :=
  match products with
  | [] => []
  | product :: rest =>
      price_entry product_id price_id product
      :: prices_of product_id (price_id + 1) rest
  end.

(** The price entries of the groups [items], group after group. *)
Fixpoint prices_from (product_id price_id : Z)
                     (items : list (string * BestPrice))
  : list PriceEntry.t :=
  match items with
  | [] => []
  | item :: rest =>
      prices_of product_id price_id (all_prices (snd item))
      ++ prices_from (product_id + 1)
                     (price_id + len (all_prices (snd item))) rest
  end.

(** The mean of a sequence of numbers; [None] when it is empty. *)
Definition mean (xs : list number) : option number :=
  truediv (sum xs) (PyInt (len xs)).

End AggregationTerms.

Section SampleData.
Import PyStr PyNum PyDict Integrator.

(** A loaded record with the given name, price and retailer. *)
Definition sample (name : string) (price : float) (shop : string) : Product :=
  mkRow (P := float) "" name price "in_stock" "2025-06-01T08:00:00" shop
        (Some "Fresh Produce") (Some "per kg") None.

(** Two retailers tie on the lowest price of the same product. *)
Definition tied_bananas : list Product :=
  [sample "Bananas" 19.99 "Checkers";
   sample " bananas" 17.99 "Shoprite";
   sample "White Bread" 15.99 "Checkers";
   sample "BANANAS " 17.99 "SPAR"].

(** One product at three retailers, at 19.99, 24.99 and 26.99. *)
Definition three_apples : list Product :=
  [sample "Apples" 19.99 "Shoprite";
   sample "Apples" 24.99 "Pick n Pay";
   sample "Apples" 26.99 "SPAR"].

(** A row of a CSV file with the given name, price cell and retailer. *)
Definition csv (name : string) (cell : option string) (shop : string)
  : CsvRow :=
  mkRow (P := option string) "" name cell "in_stock" "2025-06-01T08:00:00"
        shop (Some "Fresh Produce") (Some "per kg") None.

(** A row whose price cell is no number, and a file that holds it. *)
Definition bad_row : CsvRow := csv "Bananas" (Some "N/A"%string) "Checkers".

Definition bananas_file : list CsvRow :=
  [bad_row; csv "bananas" (Some "17.99"%string) "Shoprite"].

(** A file whose first price cell is [nan], which [float] parses. *)
Definition nan_file : list CsvRow :=
  [csv "Bananas" (Some "nan"%string) "Checkers";
   csv "Bananas" (Some "3.0"%string) "Shoprite"].

(** One product at five retailers, two of them with a price that is not
    above 0. *)
Definition five_rices : list Product :=
  [sample "Rice" (-5) "Checkers";
   sample "Rice" 45.5 "Pick n Pay";
   sample "Rice" 0 "Woolworths";
   sample "Rice" 39.25 "Shoprite";
   sample "Rice" 48.75 "SPAR"].

(** Twenty products sold by one retailer and one sold by two. *)
Definition many_products : list Product :=
  map (fun n => sample ("item " ++ of_int (Z.of_nat n)) 10 "Checkers")
      (seq 1 20)
  ++ [sample "last" 10 "Checkers"; sample "last" 31 "SPAR"].

End SampleData.

Section ExtractionTerms.
Import PyStr PyNum PyFloat Extractor.
Local Open Scope string_scope.
Local Open Scope float_scope.

(** What the four checks accept. *)
Definition accepted (product : Product) : Prop :=
  product_name product <> EmptyString
  /\ (exists f, current_price product = Some f
                /\ ((0 <? f) = true \/ is_nan f = true))
  /\ retailer product <> EmptyString
  /\ In (availability_status product) availability_enum.

(** Every character of the string passes the test. *)
Fixpoint all_chars (f : ascii -> bool) (s : string) : bool :=
  match s with
  | EmptyString => true
  | String c r => (f c && all_chars f r)%bool
  end.

(** A digit or the decimal point. *)
Definition plain (c : ascii) : bool := (is_digit c || Ascii.eqb c ".")%bool.

(** The text does not start with a digit. *)
Definition no_digit_ahead (rest : string) : Prop :=
  match rest with
  | EmptyString => True
  | String c _ => is_digit c = false
  end.

(** The shapes of the optional fraction: nothing, or a point and two
    digits. *)
Definition fraction_shape (frac : string) : Prop :=
  frac = EmptyString
  \/ exists a b, is_digit a = true /\ is_digit b = true
                 /\ frac = String "." (String a (String b EmptyString)).

(** The digits of a fraction, without its point. *)
Definition fraction_digits (frac : string) : string :=
  match frac with
  | EmptyString => EmptyString
  | String _ fp => fp
  end.

(** The float nearest to the decimal number that a token denotes. *)
Definition token_value (token : string) : float :=
  let (ip, frac) := take_digits token in
  scale10 (digits_value (ip ++ fraction_digits frac))
          (- Z.of_nat (String.length (fraction_digits frac))).

(** The first numeric token of a text: at its first digit, the digits that
    follow one another, and then a point and two digits when the text goes
    on with them. *)
Fixpoint first_numeric_token (s : string) : option string :=
  match s with
  | EmptyString => None
  | String c r =>
      if is_digit c
      then let (ds, rest) := take_digits s in Some (ds ++ match_fraction rest)
      else first_numeric_token r
  end.

End ExtractionTerms.

Section MoreTerms.
Import PyStr PyNum PyFloat PyDict PyMore.
Local Open Scope string_scope.

(** The white space of a text is tidy: every white-space character is a
    space, and none follows another; with [after_space], the text does not
    start with one either. *)
Fixpoint spaced (after_space : bool) (s : string) : bool :=
  match s with
  | EmptyString => true
  | String c r =>
      if is_space c
      then (Ascii.eqb c " " && negb after_space && spaced true r)%bool
      else spaced false r
  end.

(** The text does not end with white space. *)
Fixpoint ends_well (s : string) : bool :=
  match s with
  | EmptyString => true
  | String c r =>
      match r with
      | EmptyString => negb (is_space c)
      | _ => ends_well r
      end
  end.

(** A lower-case letter, a digit or a dash. *)
Definition id_or_dash (c : ascii) : bool :=
  (is_id_char c || Ascii.eqb c "-")%bool.

End MoreTerms.

Section MoreExtractionTerms.
Import PyStr PyNum PyDict PyMore Extractor ExtractorRest.

(** The position of the record that an error is about. *)
Definition error_index (e : error) : nat :=
  match e with
  | MissingName i | InvalidPrice i _ | MissingRetailer i
  | InvalidAvailability i _ => i
  end.

(** What a batch adds to the merged products: itself when it is valid, and
    nothing otherwise. *)
Definition valid_part (batch : string * list Product) : list Product :=
  if fst (validate_data_integrity (snd batch)) then snd batch else [].

(** What a batch adds to the CSV files written: itself when it has
    products and is valid. *)
Definition saved_part (batch : string * list Product)
  : list (string * list Product) :=
  match snd batch with
  | [] => []
  | _ => if fst (validate_data_integrity (snd batch)) then [batch] else []
  end.

(** What a batch adds to the error files written: its errors when it is
    not valid. *)
Definition error_part (batch : string * list Product)
  : list (string * list error) :=
  if fst (validate_data_integrity (snd batch)) then []
  else [(fst batch, snd (validate_data_integrity (snd batch)))].

(** The entry of a dictionary of counts for something counted [n] times. *)
Definition count_entry (n : nat) : option Z :=
  match n with
  | O => None
  | _ => Some (Z.of_nat n)
  end.

(** The dictionary [counts] tallies the names [l]: every name has its
    number of occurrences, a name that does not occur has no entry, and the
    counts add up to the length of [l]. *)
Definition tallies (l : list string) (counts : dict Z) : Prop :=
  NoDup (keys counts)
  /\ (forall k, get k counts = count_entry (count_occ string_dec l k))
  /\ fold_right Z.add 0 (values counts) = Z.of_nat (List.length l).

End MoreExtractionTerms.

Section MoreAggregationTerms.
Import PyStr PyNum PyDict PyMore Integrator IntegratorRest.

(** The records of the groups that the adapter maps, in their order. *)
Definition mapped_records (best_prices : dict BestPrice) : list Product :=
  flat_map (fun item => all_prices (snd item)) (firstn 20 best_prices).

(** Any character but the underscore. *)
Definition no_underscore (c : ascii) : bool := negb (Ascii.eqb c "_").

(** The availability values of the presentation layer. *)
Definition dashed_enum : list string :=
  ["in-stock"; "low-stock"; "out-of-stock"; "unknown"]%string.

(** What a retailer brings to the merge: the content of its latest file,
    and nothing without a file. *)
Definition rows_of {A} (latest : option (list A)) : list A :=
  match latest with
  | Some rows => rows
  | None => []
  end.

(** The reading ends or fails before it yields a row. *)
Definition yields_nothing (reading : list Reading) : Prop :=
  reading = [] \/ exists rest, reading = Raised :: rest.

(** Every group of the dictionary holds records of its own key, and one
    at least. *)
Definition keyed (l : dict BestPrice) : Prop :=
  forall k r, In (k, r) l ->
    all_prices r <> []
    /\ forall p, In p (all_prices r) -> normalized_name p = k.

(** The group has savings above 0. *)
Definition pays (item : string * BestPrice) : bool :=
  gtb (savings (snd item)) (PyInt 0).

(** The deal that the report states for a group. *)
Definition deal_of (item : string * BestPrice) : Deal.t :=
  Deal.mk (fst item)
          (current_price (best_product (snd item)))
          (retailer (best_product (snd item)))
          (savings (snd item))
          (price_range (snd item)).

End MoreAggregationTerms.

(* ================================================================== *)
(** * The order of binary64 floats *)

Section FloatOrder.
Local Open Scope float_scope.

Local Ltac by_compare :=
  repeat match goal with
  | H : context [Z.compare ?a ?b] |- _ => destruct (Z.compare_spec a b)
  | |- context [Z.compare ?a ?b] => destruct (Z.compare_spec a b)
  | H : context [Pos.compare_cont Eq ?a ?b] |- _ =>
      change (Pos.compare_cont Eq a b) with (Pos.compare a b) in H;
      destruct (Pos.compare_spec a b)
  | |- context [Pos.compare_cont Eq ?a ?b] =>
      change (Pos.compare_cont Eq a b) with (Pos.compare a b);
      destruct (Pos.compare_spec a b)
  end;
  simpl in *; try discriminate; try reflexivity; subst; try lia.

Local Ltac by_shape x :=
  destruct x as [[]|[]| |[] ? ?].

Lemma SFltb_irrefl x : SFltb x x = false.
Proof.
  unfold SFltb. by_shape x; simpl; auto;
    rewrite Z.compare_refl, Pos.compare_cont_refl; reflexivity.
Qed.

Lemma SFltb_trans x y z :
  SFltb x y = true -> SFltb y z = true -> SFltb x z = true.
Proof.
  unfold SFltb. by_shape x; by_shape y; by_shape z; simpl; intros H1 H2;
    try discriminate; try reflexivity; by_compare.
Qed.

Lemma SFeqb_ltb x y z :
  SFeqb x y = true -> SFltb y z = true -> SFltb x z = true.
Proof.
  unfold SFltb, SFeqb. by_shape x; by_shape y; by_shape z; simpl;
    intros H1 H2; try discriminate; try reflexivity; by_compare.
Qed.

Lemma SFltb_total x y :
  SFeqb x x = true -> SFeqb y y = true ->
  SFltb x y = false -> SFleb y x = true.
Proof.
  unfold SFltb, SFeqb, SFleb. by_shape x; by_shape y; simpl;
    intros H1 H2 H3; try discriminate; try reflexivity; by_compare.
Qed.

Lemma SFltb_not_nan x y :
  SFltb x y = true -> SFeqb x x = true /\ SFeqb y y = true.
Proof.
  unfold SFltb, SFeqb. by_shape x; by_shape y; simpl; intros H;
    try discriminate; split; try reflexivity;
    rewrite Z.compare_refl, Pos.compare_cont_refl; reflexivity.
Qed.

Lemma SFleb_not_ltb x y : SFleb x y = true -> SFltb y x = false.
Proof.
  unfold SFltb, SFleb. by_shape x; by_shape y; simpl; intros H;
    try discriminate; try reflexivity; by_compare.
Qed.

Lemma SFleb_cases x y :
  SFleb x y = (SFltb x y || SFeqb x y)%bool.
Proof.
  unfold SFltb, SFleb, SFeqb. destruct (SFcompare x y) as [[]|]; reflexivity.
Qed.

Lemma ltb_irrefl (x : float) : (x <? x) = false.
Proof. rewrite FloatAxioms.ltb_spec. apply SFltb_irrefl. Qed.

Lemma ltb_trans (x y z : float) :
  (x <? y) = true -> (y <? z) = true -> (x <? z) = true.
Proof. rewrite !FloatAxioms.ltb_spec. apply SFltb_trans. Qed.

Lemma eqb_ltb (x y z : float) :
  (x =? y) = true -> (y <? z) = true -> (x <? z) = true.
Proof. rewrite !FloatAxioms.ltb_spec, FloatAxioms.eqb_spec. apply SFeqb_ltb. Qed.

Lemma is_nan_false (x : float) : is_nan x = false <-> (x =? x) = true.
Proof. unfold is_nan. destruct (x =? x); simpl; intuition congruence. Qed.

Lemma ltb_total (x y : float) :
  is_nan x = false -> is_nan y = false ->
  (x <? y) = false -> (y <=? x) = true.
Proof.
  intros Hx Hy. apply is_nan_false in Hx, Hy. revert Hx Hy.
  rewrite FloatAxioms.ltb_spec, FloatAxioms.leb_spec, !FloatAxioms.eqb_spec. apply SFltb_total.
Qed.

Lemma ltb_not_nan (x y : float) :
  (x <? y) = true -> is_nan x = false /\ is_nan y = false.
Proof.
  intros H. rewrite FloatAxioms.ltb_spec in H. apply SFltb_not_nan in H.
  rewrite <- !FloatAxioms.eqb_spec in H. split; apply is_nan_false; apply H.
Qed.

Lemma leb_not_ltb (x y : float) : (x <=? y) = true -> (y <? x) = false.
Proof. rewrite FloatAxioms.ltb_spec, FloatAxioms.leb_spec. apply SFleb_not_ltb. Qed.

Lemma leb_cases (x y : float) : (x <=? y) = ((x <? y) || (x =? y))%bool.
Proof. rewrite FloatAxioms.ltb_spec, FloatAxioms.leb_spec, FloatAxioms.eqb_spec. apply SFleb_cases. Qed.

Lemma SFleb_not_nan x y : SFleb x y = true -> SFeqb x x = true.
Proof.
  unfold SFleb, SFeqb. by_shape x; by_shape y; simpl; intros H;
    try discriminate; try reflexivity;
    rewrite Z.compare_refl, Pos.compare_cont_refl; reflexivity.
Qed.

Lemma leb_not_nan (x y : float) : (x <=? y) = true -> is_nan x = false.
Proof.
  rewrite FloatAxioms.leb_spec. intros H. apply SFleb_not_nan in H.
  apply is_nan_false. rewrite FloatAxioms.eqb_spec. exact H.
Qed.

Lemma leb_refl (x : float) : is_nan x = false -> (x <=? x) = true.
Proof.
  intros H. rewrite leb_cases. apply is_nan_false in H. rewrite H.
  apply orb_true_r.
Qed.

End FloatOrder.

(* ================================================================== *)
(** * [min] and [max] with a key *)

Section MinMax.
Import PyNum.
Local Open Scope float_scope.
Context {A : Type} (key : A -> float).

Lemma min_candidate_first x : min_candidate key [x] 0 x.
Proof.
  repeat split.
  - intros p [<- | []]. apply ltb_irrefl.
  - intros j q Hj. lia.
Qed.

Lemma min_candidate_step seen i b y :
  min_candidate key seen i b ->
  exists i', min_candidate key (seen ++ [y]) i'
               (if key y <? key b then y else b).
Proof.
  intros (Hi & Hlow & Hfirst).
  destruct (key y <? key b) eqn:Hy.
  - exists (List.length seen). repeat split.
    + rewrite nth_error_app2, Nat.sub_diag by lia. reflexivity.
    + intros p Hp. apply in_app_or in Hp as [Hp | [<- | []]].
      * destruct (key p <? key y) eqn:Hpy; [|reflexivity].
        specialize (Hlow p Hp).
        rewrite (ltb_trans _ _ _ Hpy Hy) in Hlow. discriminate.
      * apply ltb_irrefl.
    + intros j q Hj Hq. rewrite nth_error_app1 in Hq by lia.
      destruct (key q =? key y) eqn:Hqy; [|reflexivity].
      apply nth_error_In in Hq. specialize (Hlow q Hq).
      rewrite (eqb_ltb _ _ _ Hqy Hy) in Hlow. discriminate.
  - exists i. repeat split.
    + rewrite nth_error_app1; [assumption|].
      apply nth_error_Some. congruence.
    + intros p Hp. apply in_app_or in Hp as [Hp | [<- | []]]; auto.
    + intros j q Hj Hq. apply (Hfirst j q Hj).
      rewrite nth_error_app1 in Hq; [assumption|].
      assert (i < List.length seen)%nat by (apply nth_error_Some; congruence).
      lia.
Qed.

Lemma min_from_candidate xs : forall seen i b,
  min_candidate key seen i b ->
  exists i', min_candidate key (seen ++ xs) i' (min_from key b xs).
Proof.
  induction xs as [|y xs IH]; intros seen i b H.
  - exists i. rewrite app_nil_r. exact H.
  - destruct (min_candidate_step seen i b y H) as [i1 H1].
    destruct (IH _ _ _ H1) as [i2 H2].
    exists i2. rewrite <- app_assoc in H2. exact H2.
Qed.

(** [min(x :: xs, key=key)] is an item that no item compares strictly
    below, and no earlier item compares equal to it. *)
Lemma min_from_spec x xs :
  exists i, min_candidate key (x :: xs) i (min_from key x xs).
Proof. exact (min_from_candidate xs [x] 0%nat x (min_candidate_first x)). Qed.

Lemma min_from_In x xs : In (min_from key x xs) (x :: xs).
Proof.
  destruct (min_from_spec x xs) as (i & Hi & _).
  eapply nth_error_In; eauto.
Qed.

(** Without NaN, [min] is below every item. *)
Lemma min_from_least x xs :
  (forall p, In p (x :: xs) -> is_nan (key p) = false) ->
  forall p, In p (x :: xs) -> (key (min_from key x xs) <=? key p) = true.
Proof.
  intros Hnan p Hp. destruct (min_from_spec x xs) as (i & Hi & Hlow & _).
  apply ltb_total; auto. apply Hnan. eapply nth_error_In; eauto.
Qed.

Lemma max_from_candidate xs : forall seen b,
  max_candidate key seen b -> max_candidate key (seen ++ xs) (max_from key b xs).
Proof.
  induction xs as [|y xs IH]; intros seen b [Hin Hup].
  - rewrite app_nil_r. split; assumption.
  - replace (seen ++ y :: xs) with ((seen ++ [y]) ++ xs)
      by (rewrite <- app_assoc; reflexivity).
    apply IH. destruct (key b <? key y) eqn:Hy; split.
    + apply in_or_app. right. left. reflexivity.
    + intros p Hp. apply in_app_or in Hp as [Hp | [<- | []]].
      * destruct (key y <? key p) eqn:Hyp; [|reflexivity].
        specialize (Hup p Hp).
        rewrite (ltb_trans _ _ _ Hy Hyp) in Hup. discriminate.
      * apply ltb_irrefl.
    + apply in_or_app. left. assumption.
    + intros p Hp. apply in_app_or in Hp as [Hp | [<- | []]]; auto.
Qed.

Lemma max_from_spec x xs : max_candidate key (x :: xs) (max_from key x xs).
Proof.
  apply (max_from_candidate xs [x] x). split.
  - left. reflexivity.
  - intros p [<- | []]. apply ltb_irrefl.
Qed.

Lemma max_from_greatest x xs :
  (forall p, In p (x :: xs) -> is_nan (key p) = false) ->
  forall p, In p (x :: xs) -> (key p <=? key (max_from key x xs)) = true.
Proof.
  intros Hnan p Hp. destruct (max_from_spec x xs) as [Hin Hup].
  apply ltb_total; auto.
Qed.

End MinMax.

(* ================================================================== *)
(** * Dictionaries *)

Section DictFacts.
Import PyDict.
Context {V : Type}.
Implicit Types (d : dict V) (k : string) (v : V).

Lemma get_set_same k v d : get k (set k v d) = Some v.
Proof.
  induction d as [|[k' v'] d IH]; simpl.
  - rewrite String.eqb_refl. reflexivity.
  - destruct (String.eqb_spec k k') as [->|Hne]; simpl.
    + rewrite String.eqb_refl. reflexivity.
    + apply String.eqb_neq in Hne. rewrite Hne. exact IH.
Qed.

Lemma get_set_other k k' v d : k <> k' -> get k' (set k v d) = get k' d.
Proof.
  intros Hne. induction d as [|[k0 v0] d IH]; simpl.
  - destruct (String.eqb_spec k' k); congruence.
  - destruct (String.eqb_spec k k0) as [->|Hk]; simpl.
    + destruct (String.eqb_spec k' k0); congruence.
    + destruct (String.eqb_spec k' k0); congruence.
Qed.

Lemma get_None_keys k d : get k d = None <-> ~ In k (keys d).
Proof.
  induction d as [|[k' v'] d IH]; simpl.
  - intuition.
  - destruct (String.eqb_spec k k') as [->|Hne].
    + split; [discriminate | intros H; exfalso; auto].
    + rewrite IH. intuition congruence.
Qed.

Lemma set_new k v d : get k d = None -> set k v d = d ++ [(k, v)].
Proof.
  induction d as [|[k' v'] d IH]; simpl; [reflexivity|].
  destruct (String.eqb_spec k k'); [discriminate|].
  intros H. rewrite (IH H). reflexivity.
Qed.

Lemma keys_set_old k v d : get k d <> None -> keys (set k v d) = keys d.
Proof.
  induction d as [|[k' v'] d IH]; simpl; [congruence|].
  destruct (String.eqb_spec k k') as [->|Hne]; simpl; [reflexivity|].
  intros H. rewrite (IH H). reflexivity.
Qed.

Lemma get_In k v d : get k d = Some v -> In (k, v) d.
Proof.
  induction d as [|[k' v'] d IH]; simpl; [discriminate|].
  destruct (String.eqb_spec k k') as [->|Hne].
  - intros [= ->]. left. reflexivity.
  - intros H. right. auto.
Qed.

Lemma In_get k v d : NoDup (keys d) -> In (k, v) d -> get k d = Some v.
Proof.
  induction d as [|[k' v'] d IH]; simpl; [intros _ []|].
  intros Hnd [[= -> ->] | Hin].
  - rewrite String.eqb_refl. reflexivity.
  - inversion_clear Hnd as [|? ? Hnotin Hnd'].
    destruct (String.eqb_spec k k') as [->|Hne]; [|auto].
    exfalso. apply Hnotin. change k' with (fst (k', v)).
    apply in_map. exact Hin.
Qed.

End DictFacts.

(* ================================================================== *)
(** * The grouping loop of [find_best_prices] *)

Section Grouping.
Import PyDict Integrator.

Lemma NoDup_snoc {A} (l : list A) (x : A) :
  NoDup l -> ~ In x l -> NoDup (l ++ [x]).
Proof.
  induction l as [|a l IH]; simpl; intros Hnd Hx.
  - constructor; [intros [] | constructor].
  - inversion_clear Hnd as [|? ? Ha Hl]. constructor.
    + intros Hin. apply in_app_or in Hin as [Hin | [<- | []]]; auto.
    + apply IH; auto.
Qed.

Lemma group_step_get g p k :
  get k (group_step g p)
  = if String.eqb (normalized_name p) k
    then Some (get_default (normalized_name p) [] g ++ [p])
    else get k g.
Proof.
  unfold group_step, mem, get_default.
  destruct (String.eqb_spec (normalized_name p) k) as [<-|Hne].
  - rewrite get_set_same. f_equal. f_equal.
    destruct (get (normalized_name p) g) eqn:Hg; simpl.
    + rewrite Hg. reflexivity.
    + rewrite get_set_same. reflexivity.
  - rewrite get_set_other by assumption.
    destruct (get (normalized_name p) g); simpl; [reflexivity|].
    apply get_set_other. assumption.
Qed.

Lemma group_step_keys g p :
  keys (group_step g p)
  = if mem (normalized_name p) g then keys g
    else keys g ++ [normalized_name p].
Proof.
  unfold group_step, mem, get_default.
  destruct (get (normalized_name p) g) eqn:Hg; simpl.
  - apply keys_set_old. congruence.
  - rewrite keys_set_old by (rewrite get_set_same; discriminate).
    rewrite (set_new _ _ _ Hg). unfold keys. rewrite map_app. reflexivity.
Qed.

Lemma group_of_app k seen p :
  group_of k (seen ++ [p])
  = group_of k seen
    ++ (if String.eqb (normalized_name p) k then [p] else []).
Proof. unfold group_of. rewrite filter_app. reflexivity. Qed.

Lemma groups_of_step seen g p :
  groups_of seen g -> groups_of (seen ++ [p]) (group_step g p).
Proof.
  intros [Hnd Hget]. split.
  - rewrite group_step_keys. unfold mem.
    destruct (get (normalized_name p) g) eqn:Hg; [assumption|].
    apply get_None_keys in Hg. apply NoDup_snoc; assumption.
  - intros k. rewrite group_step_get, group_of_app.
    destruct (String.eqb_spec (normalized_name p) k) as [<-|Hne].
    + unfold get_default. rewrite Hget.
      destruct (group_of (normalized_name p) seen); reflexivity.
    + rewrite app_nil_r. apply Hget.
Qed.

Lemma groups_of_fold ps : forall seen g,
  groups_of seen g -> groups_of (seen ++ ps) (fold_left group_step ps g).
Proof.
  induction ps as [|p ps IH]; intros seen g H; simpl.
  - rewrite app_nil_r. exact H.
  - replace (seen ++ p :: ps) with ((seen ++ [p]) ++ ps)
      by (rewrite <- app_assoc; reflexivity).
    apply IH, groups_of_step, H.
Qed.

Lemma group_products_spec all : groups_of all (group_products all).
Proof.
  apply (groups_of_fold all [] []). split; [constructor | reflexivity].
Qed.

End Grouping.

(* ================================================================== *)
(** * The emission loop of [find_best_prices] *)

Section Emission.
Import PyDict Integrator.

Lemma mem_keys {V} k (g : dict V) : mem k g = existsb (String.eqb k) (keys g).
Proof.
  unfold mem. induction g as [|[k' v] g IH]; simpl; [reflexivity|].
  destruct (String.eqb k k'); simpl; [reflexivity | exact IH].
Qed.

Lemma group_fold_keys ps : forall g,
  keys (fold_left group_step ps g)
  = keys g ++ first_seen (keys g) (map normalized_name ps).
Proof.
  induction ps as [|p ps IH]; intros g; simpl.
  - rewrite app_nil_r. reflexivity.
  - rewrite IH, group_step_keys, mem_keys.
    destruct (existsb (String.eqb (normalized_name p)) (keys g));
      [reflexivity|].
    rewrite <- app_assoc. reflexivity.
Qed.

Lemma best_fold g : forall acc,
  NoDup (keys acc ++ keys g) ->
  fold_left best_step g acc = acc ++ flat_map emit g.
Proof.
  induction g as [|[k ps] g IH]; intros acc Hnd; simpl.
  - rewrite app_nil_r. reflexivity.
  - simpl in Hnd. pose proof (NoDup_remove_1 _ _ _ Hnd) as Hnd1.
    pose proof (NoDup_remove_2 _ _ _ Hnd) as Hk.
    destruct ps as [|p0 rest]; unfold emit; simpl.
    + apply IH. exact Hnd1.
    + rewrite set_new.
      * rewrite IH.
        -- rewrite <- app_assoc. reflexivity.
        -- unfold keys in *. rewrite map_app, <- app_assoc. exact Hnd.
      * apply get_None_keys. intros Hin. apply Hk.
        apply in_or_app. left. exact Hin.
Qed.

Lemma find_best_prices_emit all :
  find_best_prices all = flat_map emit (group_products all).
Proof.
  unfold find_best_prices. rewrite best_fold; [reflexivity|].
  apply (group_products_spec all).
Qed.

Lemma group_values_non_empty all k ps :
  In (k, ps) (group_products all) -> ps = group_of k all /\ ps <> [].
Proof.
  intros Hin. destruct (group_products_spec all) as [Hnd Hget].
  apply (In_get _ _ _ Hnd) in Hin. rewrite Hget in Hin.
  destruct (group_of k all); [discriminate|].
  injection Hin as <-. split; [reflexivity | discriminate].
Qed.

(** The entries of [find_best_prices]: one for each key that some record
    has, computed from the records with that key in their input order. *)
Lemma find_best_prices_In all k r :
  In (k, r) (find_best_prices all)
  <-> exists p0 rest,
        group_of k all = p0 :: rest /\ r = best_price_of p0 rest.
Proof.
  rewrite find_best_prices_emit, in_flat_map. split.
  - intros ([k' ps] & Hin & Hemit).
    apply group_values_non_empty in Hin as [-> _].
    unfold emit in Hemit. simpl in Hemit.
    destruct (group_of k' all) as [|p0 rest] eqn:Hg; [destruct Hemit|].
    destruct Hemit as [[= <- <-] | []]. eauto.
  - intros (p0 & rest & Hg & ->).
    exists (k, p0 :: rest). split.
    + apply get_In. destruct (group_products_spec all) as [_ Hget].
      rewrite Hget, Hg. reflexivity.
    + left. reflexivity.
Qed.

Lemma find_best_prices_keys all :
  keys (find_best_prices all) = first_seen [] (map normalized_name all).
Proof.
  rewrite find_best_prices_emit.
  transitivity (keys (group_products all)).
  - pose proof (group_values_non_empty all) as Hne.
    induction (group_products all) as [|[k ps] g IH]; [reflexivity|].
    destruct (Hne k ps (or_introl eq_refl)) as [_ Hps].
    destruct ps as [|p0 rest]; [congruence|].
    simpl. f_equal. apply IH. intros k' ps' Hin. apply Hne. right. exact Hin.
  - apply (group_fold_keys all []).
Qed.

Lemma find_best_prices_NoDup all : NoDup (keys (find_best_prices all)).
Proof.
  rewrite find_best_prices_keys.
  pose proof (group_fold_keys all []) as H. simpl in H. rewrite <- H.
  apply (group_products_spec all).
Qed.

End Emission.

(* ================================================================== *)
(** * Properties of [find_best_prices] *)

Section Aggregation.
Import PyNum PyDict Integrator.
Local Open Scope float_scope.

(** What [min] selects in an emitted group, which holds the records of one
    normalised name in their input order and is never empty: a record of
    the group such that no record of the group has a strictly lower
    [current_price] and no record before it in the group has an equal
    [current_price].  When no price of the group is NaN, its price is below
    or equal to every price of the group, so that it is the first of the
    records of lowest price. *)
Theorem best_product_is_first_minimum
    (all_products : list Product) (name : string) (result : BestPrice) :
  In (name, result) (find_best_prices all_products) ->
  all_prices result = group_of name all_products
  /\ all_prices result <> []
  /\ exists i,
       nth_error (all_prices result) i = Some (best_product result)
       /\ (forall p, In p (all_prices result) ->
             (current_price p <? current_price (best_product result)) = false)
       /\ (forall j q, (j < i)%nat ->
             nth_error (all_prices result) j = Some q ->
             (current_price q =? current_price (best_product result)) = false)
       /\ ((forall p, In p (all_prices result) ->
              is_nan (current_price p) = false) ->
           forall p, In p (all_prices result) ->
             (current_price (best_product result) <=? current_price p) = true).
Proof.
  intros Hin. apply find_best_prices_In in Hin as (p0 & rest & Hg & ->).
  simpl. split; [symmetry; exact Hg|]. split; [discriminate|].
  destruct (min_from_spec current_price p0 rest) as (i & Hi & Hlow & Hfirst).
  exists i. repeat split; try assumption.
  intros Hnan p Hp. apply min_from_least; assumption.
Qed.

(** On [tied_bananas]: of the two records at 17.99, the one of Shoprite,
    second in the group, is the [best_product]. *)
Lemma best_product_is_first_minimum_witness :
  let result :=
    mkBest (sample " bananas" 17.99 "Shoprite")
           [sample "Bananas" 19.99 "Checkers";
            sample " bananas" 17.99 "Shoprite";
            sample "BANANAS " 17.99 "SPAR"]
           (PyFloat 2) (mkRange (PyFloat 17.99) (PyFloat 19.99)) in
  In ("bananas"%string, result) (find_best_prices tied_bananas)
  /\ nth_error (all_prices result) 1 = Some (best_product result)
  /\ exists i,
       nth_error (all_prices result) i = Some (best_product result)
       /\ (forall p, In p (all_prices result) ->
             (current_price p <? current_price (best_product result)) = false)
       /\ (forall j q, (j < i)%nat ->
             nth_error (all_prices result) j = Some q ->
             (current_price q =? current_price (best_product result)) = false)
       /\ ((forall p, In p (all_prices result) ->
              is_nan (current_price p) = false) ->
           forall p, In p (all_prices result) ->
             (current_price (best_product result) <=? current_price p) = true).
Proof.
  intros result.
  assert (Hin : In ("bananas"%string, result) (find_best_prices tied_bananas))
    by (vm_compute; left; reflexivity).
  split; [exact Hin|]. split; [reflexivity|].
  exact (proj2 (proj2 (best_product_is_first_minimum
                         tied_bananas "bananas"%string result Hin))).
Defined.

(** C1 fails on a price that is NaN.  The file [nan_file] has two rows
    named [Bananas], with the price cells [nan] and [3.0]; [float] parses
    both.  Their group is emitted with the first record as [best_product],
    whose price is NaN, although the group holds a record at 3.0: the scan
    of [min] never replaces a candidate whose key is NaN, since no
    comparison with NaN holds. *)
Theorem nan_price_is_selected_as_best :
  exists result,
    find_best_prices (load_csv_data nan_file) = [("bananas"%string, result)]
    /\ all_prices result = load_csv_data nan_file
    /\ map current_price (all_prices result) = [nan; 3]
    /\ nth_error (all_prices result) 0 = Some (best_product result)
    /\ is_nan (current_price (best_product result)) = true
    /\ (exists p, In p (all_prices result)
                  /\ (current_price p <? infinity) = true
                  /\ (current_price p <? current_price (best_product result))
                     = false
                  /\ (current_price (best_product result) <=? current_price p)
                     = false).
Proof.
  eexists. split; [vm_compute; reflexivity|].
  split; [reflexivity|]. split; [reflexivity|]. split; [reflexivity|].
  split; [reflexivity|].
  eexists. split; [right; left; reflexivity|].
  repeat split; reflexivity.
Qed.

Lemma positive_prices_In (products : list Product) (x : float) :
  In x (positive_prices products)
  <-> exists p, In p products /\ current_price p = x /\ (0 <? x) = true.
Proof.
  unfold positive_prices. rewrite in_map_iff. split.
  - intros (p & <- & Hp). apply filter_In in Hp as [Hp Hpos]. eauto.
  - intros (p & Hp & <- & Hpos). exists p. split; [reflexivity|].
    apply filter_In. auto.
Qed.

Lemma positive_prices_not_nan (products : list Product) (x : float) :
  In x (positive_prices products) -> is_nan x = false.
Proof.
  intros Hx. apply positive_prices_In in Hx as (p & _ & _ & Hpos).
  apply (ltb_not_nan _ _ Hpos).
Qed.

Lemma group_of_In (name : string) (all_products : list Product) (p : Product) :
  In p (group_of name all_products)
  <-> In p all_products /\ normalized_name p = name.
Proof.
  unfold group_of. rewrite filter_In, String.eqb_eq. reflexivity.
Qed.

Lemma member_group (all_products : list Product) (p : Product) :
  In p all_products ->
  exists p0 rest,
    group_of (normalized_name p) all_products = p0 :: rest
    /\ In p (p0 :: rest)
    /\ In (normalized_name p, best_price_of p0 rest)
          (find_best_prices all_products).
Proof.
  intros Hp.
  assert (Hg : In p (group_of (normalized_name p) all_products))
    by (apply group_of_In; auto).
  destruct (group_of (normalized_name p) all_products)
    as [|p0 rest] eqn:Heq; [destruct Hg|].
  exists p0, rest. repeat split; try assumption.
  apply find_best_prices_In. eauto.
Qed.

(** Without NaN in its group, the group of every input record is emitted,
    and its [best_product] is the first of its records of lowest price. *)
Lemma every_group_has_first_minimum
    (all_products : list Product) (p : Product) :
  In p all_products ->
  exists result,
    In (normalized_name p, result) (find_best_prices all_products)
    /\ In p (all_prices result)
    /\ ((forall q, In q (all_prices result) ->
           is_nan (current_price q) = false) ->
        exists i,
          nth_error (all_prices result) i = Some (best_product result)
          /\ (forall q, In q (all_prices result) ->
                (current_price (best_product result) <=? current_price q)
                = true)
          /\ (forall j q, (j < i)%nat ->
                nth_error (all_prices result) j = Some q ->
                (current_price q =? current_price (best_product result))
                = false)).
Proof.
  intros Hp.
  destruct (member_group all_products p Hp) as (p0 & rest & _ & Hin & Hres).
  exists (best_price_of p0 rest). split; [exact Hres|]. split; [exact Hin|].
  intros Hnan.
  destruct (best_product_is_first_minimum _ _ _ Hres)
    as (_ & _ & i & Hi & _ & Hfirst & Hleast).
  exists i. split; [exact Hi|]. split; [exact (Hleast Hnan) | exact Hfirst].
Qed.

(** C2.  Every input record is in an emitted group, and in every emitted
    group, which holds the input records of its key, [savings] and
    [price_range] are computed from the prices of the records with
    [current_price > 0] only, the records [priced]: with two or more such
    prices, [savings] is the highest minus the lowest of them and
    [price_range] is that lowest and that highest price; with exactly one,
    [savings] is 0 and both bounds are that price; with none, [savings] is
    0 and both bounds are 0.  The group with prices 19.99, 24.99 and 26.99
    gets [savings = 7.0] and the range from 19.99 to 26.99; the group with
    prices -5, 45.5, 0, 39.25 and 48.75 gets [savings = 9.5] and the range
    from 39.25 to 48.75. *)
Theorem savings_over_positive_prices :
  (forall (all_products : list Product) (name : string) (result : BestPrice),
     In (name, result) (find_best_prices all_products) ->
     all_prices result = group_of name all_products
     /\ match map current_price (priced (all_prices result)) with
        | [] =>
            savings result = PyInt 0
            /\ price_range result = mkRange (PyInt 0) (PyInt 0)
        | [x] =>
            savings result = PyInt 0
            /\ price_range result = mkRange (PyFloat x) (PyFloat x)
        | prices =>
            exists lo hi,
              In lo prices /\ In hi prices
              /\ (forall x, In x prices ->
                    (lo <=? x) = true /\ (x <=? hi) = true)
              /\ savings result = PyFloat (hi - lo)
              /\ price_range result = mkRange (PyFloat lo) (PyFloat hi)
        end)
  /\ (forall (all_products : list Product) (p : Product),
        In p all_products ->
        exists result,
          In (normalized_name p, result) (find_best_prices all_products)
          /\ In p (all_prices result))
  /\ find_best_prices three_apples
     = [("apples"%string,
         mkBest (sample "Apples" 19.99 "Shoprite") three_apples
                (PyFloat 7) (mkRange (PyFloat 19.99) (PyFloat 26.99)))]
  /\ (map current_price (priced five_rices) = [45.5; 39.25; 48.75]
      /\ find_best_prices five_rices
         = [("rice"%string,
             mkBest (sample "Rice" (-5) "Checkers") five_rices
                    (PyFloat 9.5) (mkRange (PyFloat 39.25) (PyFloat 48.75)))]).
Proof.
  split; [|split; [|split; [|split]]; try (vm_compute; reflexivity)].
  - intros all_products name result Hin.
    apply find_best_prices_In in Hin as (p0 & rest & Hg & ->).
    cbn [all_prices savings price_range best_price_of].
    split; [symmetry; exact Hg|].
    change (map current_price (priced (p0 :: rest)))
      with (positive_prices (p0 :: rest)).
    pose proof (positive_prices_not_nan (p0 :: rest)) as Hnan.
    destruct (positive_prices (p0 :: rest)) as [|m0 [|m1 more]];
      [split; reflexivity | split; reflexivity |].
    exists (min_from (fun x => x) m0 (m1 :: more)),
           (max_from (fun x => x) m0 (m1 :: more)).
    split; [apply (min_from_In (fun x => x))|].
    split; [apply (max_from_spec (fun x => x))|].
    split; [|split; reflexivity].
    intros x Hx. split.
    + apply (min_from_least (fun x => x)); assumption.
    + apply (max_from_greatest (fun x => x)); assumption.
  - intros all_products p Hp.
    destruct (member_group all_products p Hp) as (p0 & rest & _ & Hin & Hres).
    exists (best_price_of p0 rest). split; [exact Hres | exact Hin].
Qed.

(** C2 on [five_rices], whose records at -5 and at 0 do not count. *)
Lemma savings_over_positive_prices_witness :
  let result :=
    mkBest (sample "Rice" (-5) "Checkers") five_rices
           (PyFloat 9.5) (mkRange (PyFloat 39.25) (PyFloat 48.75)) in
  In ("rice"%string, result) (find_best_prices five_rices)
  /\ all_prices result = five_rices
  /\ map current_price (all_prices result) = [-5; 45.5; 0; 39.25; 48.75]
  /\ exists lo hi,
       In lo [45.5; 39.25; 48.75] /\ In hi [45.5; 39.25; 48.75]
       /\ (forall x, In x [45.5; 39.25; 48.75] ->
             (lo <=? x) = true /\ (x <=? hi) = true)
       /\ savings result = PyFloat (hi - lo)
       /\ price_range result = mkRange (PyFloat lo) (PyFloat hi).
Proof.
  intros result.
  assert (Hin : In ("rice"%string, result) (find_best_prices five_rices))
    by (vm_compute; left; reflexivity).
  split; [exact Hin|]. split; [reflexivity|]. split; [reflexivity|].
  exact (proj2 (proj1 savings_over_positive_prices five_rices "rice"%string
                      result Hin)).
Defined.

Lemma lower_app (s t : string) :
  PyStr.lower (s ++ t) = (PyStr.lower s ++ PyStr.lower t)%string.
Proof. induction s as [|c r IH]; simpl; [|rewrite IH]; reflexivity. Qed.

Lemma lower_space (c : ascii) :
  PyStr.is_space c = true -> PyStr.lower_char c = c.
Proof.
  destruct c as [[] [] [] [] [] [] [] []]; intros H;
    try reflexivity; discriminate H.
Qed.

Lemma lower_spaces (w : string) :
  all_chars PyStr.is_space w = true -> PyStr.lower w = w.
Proof.
  induction w as [|c r IH]; simpl; [reflexivity|].
  intros H. apply andb_true_iff in H as [Hc Hr].
  rewrite (lower_space c Hc), (IH Hr). reflexivity.
Qed.

Lemma lstrip_spaces sp (w t : string) :
  all_chars sp w = true ->
  PyStr.lstrip_by sp (w ++ t) = PyStr.lstrip_by sp t.
Proof.
  induction w as [|c r IH]; simpl; [reflexivity|].
  intros H. apply andb_true_iff in H as [Hc Hr]. rewrite Hc. exact (IH Hr).
Qed.

Lemma lstrip_all sp (w : string) :
  all_chars sp w = true -> PyStr.lstrip_by sp w = EmptyString.
Proof.
  induction w as [|c r IH]; simpl; [reflexivity|].
  intros H. apply andb_true_iff in H as [Hc Hr]. rewrite Hc. exact (IH Hr).
Qed.

Lemma rstrip_spaces sp (w : string) :
  all_chars sp w = true -> PyStr.rstrip_by sp w = EmptyString.
Proof.
  induction w as [|c r IH]; simpl; [reflexivity|].
  intros H. apply andb_true_iff in H as [Hc Hr].
  rewrite (IH Hr), Hc. reflexivity.
Qed.

Lemma rstrip_app_spaces sp (t w : string) :
  all_chars sp w = true ->
  PyStr.rstrip_by sp (t ++ w) = PyStr.rstrip_by sp t.
Proof.
  intros Hw. induction t as [|c r IH]; simpl.
  - apply rstrip_spaces. exact Hw.
  - rewrite IH. reflexivity.
Qed.

Lemma strip_app_spaces (s w : string) :
  all_chars PyStr.is_space w = true -> PyStr.strip (s ++ w) = PyStr.strip s.
Proof.
  intros Hw. unfold PyStr.strip. induction s as [|c r IH].
  - simpl. rewrite (lstrip_all _ w Hw). reflexivity.
  - cbn [String.append PyStr.lstrip_by].
    destruct (PyStr.is_space c); [exact IH|].
    change (String c (r ++ w)) with (String c r ++ w)%string.
    apply rstrip_app_spaces. exact Hw.
Qed.

(** The key is the same for names that differ in white space around them
    only. *)
Lemma strip_lower_padded (before name after : string) :
  all_chars PyStr.is_space before = true ->
  all_chars PyStr.is_space after = true ->
  PyStr.strip (PyStr.lower (before ++ name ++ after))
  = PyStr.strip (PyStr.lower name).
Proof.
  intros Hb Ha. rewrite !lower_app, (lower_spaces _ Hb), (lower_spaces _ Ha).
  unfold PyStr.strip at 1. rewrite lstrip_spaces by exact Hb.
  apply (strip_app_spaces (PyStr.lower name) after Ha).
Qed.

(** C6.  The key of a record is its [product_name] lower-cased and then
    stripped of the white space around it.  The groups that
    [find_best_prices] emits have distinct keys; every group is non-empty
    and holds exactly the input records with the key of the group; and two
    input records with the same key are members of one and the same group.
    Two names have the same key when they differ in letter case only, and
    when one is the other with white space around it. *)
Theorem groups_partition_by_normalized_name (all_products : list Product) :
  NoDup (keys (find_best_prices all_products))
  /\ (forall name result,
        In (name, result) (find_best_prices all_products) ->
        all_prices result <> []
        /\ forall p, In p (all_prices result)
                     <-> In p all_products
                         /\ PyStr.strip (PyStr.lower (product_name p)) = name)
  /\ (forall p q,
        In p all_products -> In q all_products ->
        PyStr.strip (PyStr.lower (product_name p))
        = PyStr.strip (PyStr.lower (product_name q)) ->
        exists result,
          In (PyStr.strip (PyStr.lower (product_name p)), result)
             (find_best_prices all_products)
          /\ In p (all_prices result) /\ In q (all_prices result))
  /\ (forall p q : Product,
        PyStr.lower (product_name p) = PyStr.lower (product_name q)
        \/ (exists before after,
              all_chars PyStr.is_space before = true
              /\ all_chars PyStr.is_space after = true
              /\ product_name q
                 = (before ++ product_name p ++ after)%string) ->
        PyStr.strip (PyStr.lower (product_name p))
        = PyStr.strip (PyStr.lower (product_name q))).
Proof.
  split; [apply find_best_prices_NoDup|]. split; [|split].
  - intros name result Hin.
    apply find_best_prices_In in Hin as (p0 & rest & Hg & ->).
    cbn [all_prices best_price_of]. split; [discriminate|].
    intros p. rewrite <- Hg. apply group_of_In.
  - intros p q Hp Hq Hpq.
    destruct (member_group all_products p Hp) as (p0 & rest & Hg & Hin & Hres).
    exists (best_price_of p0 rest). cbn [all_prices best_price_of].
    repeat split; try assumption.
    rewrite <- Hg. apply group_of_In. split; [exact Hq|].
    symmetry. exact Hpq.
  - intros p q [Hcase | (before & after & Hb & Ha & Hname)].
    + rewrite Hcase. reflexivity.
    + rewrite Hname. symmetry. apply strip_lower_padded; assumption.
Qed.

(** C6 on [tied_bananas]: [Bananas] and [BANANAS ] share a group. *)
Lemma groups_partition_by_normalized_name_witness :
  let p := sample "Bananas" 19.99 "Checkers" in
  let q := sample "BANANAS " 17.99 "SPAR" in
  In p tied_bananas /\ In q tied_bananas
  /\ PyStr.strip (PyStr.lower (product_name p)) = "bananas"%string
  /\ PyStr.strip (PyStr.lower (product_name q)) = "bananas"%string
  /\ exists result,
       In ("bananas"%string, result) (find_best_prices tied_bananas)
       /\ In p (all_prices result) /\ In q (all_prices result).
Proof.
  intros p q.
  assert (Hp : In p tied_bananas) by (left; reflexivity).
  assert (Hq : In q tied_bananas) by (do 3 right; left; reflexivity).
  split; [exact Hp|]. split; [exact Hq|].
  split; [reflexivity|]. split; [reflexivity|].
  exact (proj1 (proj2 (proj2 (groups_partition_by_normalized_name
                                tied_bananas)))
               p q Hp Hq eq_refl).
Defined.

Lemma run_step_deterministic st st1 st2 :
  run_step st st1 -> run_step st st2 -> st1 = st2.
Proof. intros H1 H2. inversion H1; subst; inversion H2; subst; reflexivity. Qed.

Lemma returned_is_final best_prices st : ~ run_step (Returned best_prices) st.
Proof. intros H. inversion H. Qed.

Lemma run_steps_trans st1 st2 st3 :
  run_steps st1 st2 -> run_steps st2 st3 -> run_steps st1 st3.
Proof.
  induction 1 as [|st st' st'' Hstep _ IH]; intros H; [exact H|].
  eapply steps_more; [exact Hstep | exact (IH H)].
Qed.

Lemma grouping_runs todo : forall groups,
  run_steps (Grouping todo groups)
            (Emitting (fold_left group_step todo groups) []).
Proof.
  induction todo as [|product todo IH]; intros groups; simpl.
  - eapply steps_more; [apply step_items | apply steps_none].
  - eapply steps_more; [apply step_group | apply IH].
Qed.

Lemma emitting_runs todo : forall best_prices,
  run_steps (Emitting todo best_prices)
            (Returned (fold_left best_step todo best_prices)).
Proof.
  induction todo as [|item todo IH]; intros best_prices; simpl.
  - eapply steps_more; [apply step_return | apply steps_none].
  - eapply steps_more; [apply step_emit | apply IH].
Qed.

(** Every call returns, and what it returns is [find_best_prices]. *)
Lemma find_best_prices_returns all_products :
  returns all_products (find_best_prices all_products).
Proof.
  unfold returns, find_best_prices, group_products.
  eapply run_steps_trans; [apply grouping_runs | apply emitting_runs].
Qed.

Lemma returns_unique st best_prices :
  run_steps st (Returned best_prices) ->
  forall best_prices', run_steps st (Returned best_prices') ->
  best_prices = best_prices'.
Proof.
  intros Hrun. remember (Returned best_prices) as final eqn:Hfinal.
  induction Hrun as [st|st st' st'' Hstep _ IH]; intros best_prices' Hrun'.
  - subst st. inversion Hrun' as [|? ? ? Hstep' _]; subst; [congruence|].
    exfalso. exact (returned_is_final _ _ Hstep').
  - inversion Hrun' as [|? st1 ? Hstep' Hrest]; subst.
    + exfalso. exact (returned_is_final _ _ Hstep).
    + rewrite <- (run_step_deterministic _ _ _ Hstep Hstep') in Hrest.
      exact (IH eq_refl _ Hrest).
Qed.

(** C7.  Two runs of [find_best_prices] on the same merged input return
    the same dictionary, which is the one that the function computes: the
    same keys in the same order, which is the order in which the normalised
    names first occur in the input, each with the same [best_product],
    [all_prices], [savings] and [price_range]. *)
Theorem aggregation_is_deterministic
    (all_products : list Product) (first second : dict BestPrice) :
  returns all_products first ->
  returns all_products second ->
  first = second
  /\ second = find_best_prices all_products
  /\ keys second = first_seen [] (map normalized_name all_products)
  /\ map best_product (values first) = map best_product (values second)
  /\ map savings (values first) = map savings (values second)
  /\ map price_range (values first) = map price_range (values second).
Proof.
  intros Hfirst Hsecond.
  pose proof (returns_unique _ _ Hfirst _ Hsecond) as Heq.
  pose proof (returns_unique _ _ Hsecond _
                (find_best_prices_returns all_products)) as Hfun.
  subst first. split; [reflexivity|]. split; [exact Hfun|].
  split; [rewrite Hfun; apply find_best_prices_keys|]. repeat split.
Qed.

(** C7 on [tied_bananas]. *)
Lemma aggregation_is_deterministic_witness :
  let run := find_best_prices tied_bananas in
  returns tied_bananas run
  /\ run = run
  /\ run = find_best_prices tied_bananas
  /\ keys run = ["bananas"; "white bread"]%string
  /\ map best_product (values run) = map best_product (values run)
  /\ map savings (values run) = map savings (values run)
  /\ map price_range (values run) = map price_range (values run).
Proof.
  intros run.
  assert (Hrun : returns tied_bananas run).
  { unfold returns, tied_bananas.
    do 4 (eapply steps_more; [apply step_group|]).
    eapply steps_more; [apply step_items|].
    vm_compute.
    do 2 (eapply steps_more; [apply step_emit|]).
    eapply steps_more; [apply step_return|].
    apply steps_none. }
  split; [exact Hrun|].
  exact (aggregation_is_deterministic tied_bananas run run Hrun Hrun).
Defined.

(** ** Records whose price cell is no number *)

(** C3, as the code has it.  A row whose price cell is no number is
    loaded with [current_price = 0.0] and stays in the loaded sequence; it
    is a member of the group of its normalised name, and it is not among
    the records of that group from whose prices [savings] and
    [price_range] are computed. *)
Theorem unparsed_price_is_zero_and_kept
    (rows : list CsvRow) (row : CsvRow) :
  In row rows ->
  price_unparsed row ->
  let p := load_row row in
  current_price p = 0
  /\ In p (load_csv_data rows)
  /\ exists result,
       In (normalized_name p, result) (find_best_prices (load_csv_data rows))
       /\ In p (all_prices result)
       /\ ~ In p (priced (all_prices result))
       /\ savings result
          = savings_of (map current_price (priced (all_prices result)))
       /\ price_range result
          = range_of (map current_price (priced (all_prices result))).
Proof.
  intros Hin Hbad p.
  assert (Hzero : current_price p = 0).
  { unfold p, load_row, convert_price, price_unparsed in *. simpl.
    destruct (current_price row); [rewrite Hbad|]; reflexivity. }
  assert (Hp : In p (load_csv_data rows)) by (apply in_map; exact Hin).
  split; [exact Hzero|]. split; [exact Hp|].
  destruct (member_group _ p Hp) as (p0 & rest & _ & Hmem & Hres).
  exists (best_price_of p0 rest).
  cbn [all_prices savings price_range best_price_of].
  repeat split; try assumption.
  unfold priced. rewrite filter_In, Hzero. intros [_ Habs]. discriminate.
Qed.

(** C3, as the code has it, on the row of [bananas_file] whose price cell
    is [N/A]. *)
Lemma unparsed_price_is_zero_and_kept_witness :
  In bad_row bananas_file
  /\ price_unparsed bad_row
  /\ current_price (load_row bad_row) = 0
  /\ In (load_row bad_row) (load_csv_data bananas_file)
  /\ exists result,
       In (normalized_name (load_row bad_row), result)
          (find_best_prices (load_csv_data bananas_file))
       /\ In (load_row bad_row) (all_prices result)
       /\ ~ In (load_row bad_row) (priced (all_prices result))
       /\ savings result
          = savings_of (map current_price (priced (all_prices result)))
       /\ price_range result
          = range_of (map current_price (priced (all_prices result))).
Proof.
  split; [left; reflexivity|]. split; [reflexivity|].
  exact (unparsed_price_is_zero_and_kept bananas_file bad_row
           (or_introl eq_refl) eq_refl).
Defined.

(** C3, as the specification has it, fails: the row of [bananas_file]
    whose price cell is [N/A] is loaded with the price 0.0, which is a
    number and no null, and it is the [best_product] of its group, ahead
    of the record priced 17.99. *)
Lemma unparsed_price_is_selected :
  price_unparsed bad_row
  /\ current_price (load_row bad_row) = 0
  /\ exists result,
       find_best_prices (load_csv_data bananas_file)
       = [("bananas"%string, result)]
       /\ best_product result = load_row bad_row
       /\ price_range result = mkRange (PyFloat 17.99) (PyFloat 17.99).
Proof.
  split; [reflexivity|]. split; [reflexivity|].
  eexists. split; [vm_compute; reflexivity|]. split; reflexivity.
Qed.

End Aggregation.

(* ================================================================== *)
(** * Properties of [parse_availability] *)

Section Availability.
Import PyStr Extractor.





(** The rule on some texts. *)
Example parse_availability_samples :
  parse_availability "Low Stock" = "low_stock"%string
  /\ parse_availability "Only a few left!" = "low_stock"%string
  /\ parse_availability "limited, yes" = "in_stock"%string
  /\ parse_availability "SOLD OUT" = "out_of_stock"%string
  /\ parse_availability "ask in store" = "in_stock"%string.
Proof. repeat split. Qed.

End Availability.

(* ================================================================== *)
(** * Properties of [validate_data_integrity] *)

Section Validation.
Import PyStr Extractor.
Local Open Scope float_scope.

Lemma check_from_nil (products : list Product) : forall i,
  check_from i products = []
  <-> Forall (fun product => forall j, check_product j product = []) products.
Proof.
  induction products as [|product rest IH]; intros i; simpl.
  - split; [constructor | reflexivity].
  - split.
    + intros H. apply app_eq_nil in H as [H1 H2]. constructor.
      * intros j. unfold check_product in *.
        destruct (is_empty (product_name product)),
          (price_rejected (current_price product)),
          (is_empty (retailer product)),
          (negb (in_list (availability_status product) availability_enum));
          solve [discriminate | reflexivity].
      * apply (IH (S i)). exact H2.
    + intros H. inversion_clear H as [|? ? H1 H2].
      rewrite (H1 i). apply (IH (S i)). exact H2.
Qed.

(** The verdict is [True] exactly when the list of errors is empty. *)
Lemma valid_iff_no_errors (products : list Product) :
  fst (validate_data_integrity products) = true
  <-> snd (validate_data_integrity products) = [].
Proof.
  unfold validate_data_integrity. simpl.
  destruct (check_from 0 products); simpl; split; congruence.
Qed.

(** The prices that the check lets through: those above 0, and NaN, which
    is neither equal to 0 nor below it. *)
Lemma price_rejected_false (price : option float) :
  price_rejected price = false
  <-> exists f, price = Some f /\ ((0 <? f) = true \/ is_nan f = true).
Proof.
  destruct price as [f|]; simpl.
  - replace ((f =? 0) || (f <=? 0))%bool with (f <=? 0)
      by (rewrite leb_cases; destruct (f <? 0), (f =? 0); reflexivity).
    split.
    + intros H. exists f. split; [reflexivity|].
      destruct (is_nan f) eqn:Hnan; [auto|]. left.
      destruct (0 <? f) eqn:Hpos; [reflexivity|].
      rewrite (ltb_total 0 f eq_refl Hnan Hpos) in H. discriminate.
    + intros (g & [= <-] & [Hpos | Hnan]).
      * destruct (f <=? 0) eqn:Hle; [|reflexivity].
        rewrite (leb_not_ltb _ _ Hle) in Hpos. discriminate.
      * destruct (f <=? 0) eqn:Hle; [|reflexivity].
        rewrite (leb_not_nan _ _ Hle) in Hnan. discriminate.
  - split; [discriminate | intros (f & [=] & _)].
Qed.

Lemma check_product_nil (product : Product) :
  (forall j, check_product j product = []) <-> accepted product.
Proof.
  unfold accepted. rewrite <- price_rejected_false.
  unfold check_product, in_list.
  destruct (existsb (String.eqb (availability_status product)) availability_enum)
    eqn:Hst.
  - apply existsb_exists in Hst as (s & Hs & Heq).
    apply String.eqb_eq in Heq. subst s.
    destruct (product_name product), (price_rejected (current_price product)),
      (retailer product); simpl; split;
      solve [ intros H; specialize (H 0%nat); discriminate
            | intros (H1 & H2 & H3 & H4); congruence
            | intros _; repeat split; solve [discriminate | assumption]
            | intros _ j; reflexivity ].
  - assert (Hnot : ~ In (availability_status product) availability_enum).
    { intros Hin. apply Bool.not_true_iff_false in Hst. apply Hst.
      apply existsb_exists. eexists. split; [exact Hin|].
      apply String.eqb_refl. }
    split.
    + intros H. specialize (H 0%nat).
      destruct (is_empty (product_name product)),
        (price_rejected (current_price product)),
        (is_empty (retailer product)); discriminate.
    + intros (_ & _ & _ & H4). contradiction.
Qed.

(** The list of errors is empty exactly when every record has a name, a
    price that is above 0 or NaN, a retailer, and a status of the
    enumeration. *)
Lemma no_errors_iff (products : list Product) :
  snd (validate_data_integrity products) = [] <-> Forall accepted products.
Proof.
  unfold validate_data_integrity. simpl. rewrite check_from_nil.
  split; apply Forall_impl; intros product; apply check_product_nil.
Qed.

(** C8 at a record whose price is NaN.  The record passes every check, so
    the verdict is [True] with no error, although its price is not above 0. *)
Theorem validator_accepts_nan_price :
  let product :=
    mkProduct "Bananas" (Some nan) "in_stock" "2025-06-01T08:00:00"
              "Checkers" "Fresh Produce" "per kg" "" "checkers-bananas-1" in
  validate_data_integrity [product] = (true, [])
  /\ (0 <? nan) = false
  /\ price_rejected (Some 0) = true
  /\ price_rejected (Some (-1)) = true
  /\ price_rejected None = true.
Proof. repeat split. Qed.

End Validation.

(* ================================================================== *)
(** * Properties of [sanitize_price] *)

Section Sanitize.
Import PyStr PyNum PyFloat Extractor.
Local Open Scope string_scope.

Local Ltac each_char c := destruct c as [[] [] [] [] [] [] [] []].

Lemma digit_is_plain (c : ascii) :
  is_digit c = true ->
  is_space c = false /\ is_float_space c = false
  /\ Ascii.eqb c "_" = false /\ Ascii.eqb c "," = false.
Proof. each_char c; intros H; try discriminate H; repeat split. Qed.

Lemma match_here_not_R (c : ascii) (r : string) :
  c <> "R"%char -> match_here (String c r) = match_spaces_group (String c r).
Proof. each_char c; intros H; try reflexivity. congruence. Qed.

Lemma sign_digit (c : ascii) (r : string) :
  is_digit c = true -> sign (String c r) = (false, String c r).
Proof. each_char c; intros H; try discriminate H; reflexivity. Qed.

Lemma take_digits_head (c : ascii) (r : string) :
  is_digit c = false -> take_digits (String c r) = (EmptyString, String c r).
Proof. intros H. simpl. rewrite H. reflexivity. Qed.

Lemma match_group_not_digit (c : ascii) (r : string) :
  is_digit c = false -> match_group (String c r) = None.
Proof. intros H. unfold match_group. rewrite take_digits_head by exact H. reflexivity. Qed.

Lemma match_group_digit (c : ascii) (r : string) :
  is_digit c = true -> exists g, match_group (String c r) = Some g.
Proof.
  intros H. unfold match_group. simpl. rewrite H.
  destruct (take_digits r) as [d t]. simpl. eauto.
Qed.

Lemma re_search_cons (c : ascii) (r : string) :
  re_search (String c r)
  = match match_here (String c r) with
    | Some g => Some g
    | None => re_search r
    end.
Proof. reflexivity. Qed.

Lemma match_spaces_then_search (r g : string) :
  match_spaces_group r = Some g -> re_search r = Some g.
Proof.
  intros H. destruct r as [|c r]; [discriminate H|].
  destruct (ascii_dec c "R") as [->|Hc].
  - discriminate H.
  - rewrite re_search_cons. rewrite (match_here_not_R c r Hc), H. reflexivity.
Qed.

Lemma re_search_first_token (s : string) :
  re_search s = first_numeric_token s.
Proof.
  induction s as [|c r IH]; [reflexivity|].
  cbn [first_numeric_token]. destruct (is_digit c) eqn:Hd.
  - assert (Hc : c <> "R"%char) by (intros ->; discriminate Hd).
    rewrite re_search_cons. rewrite (match_here_not_R c r Hc).
    unfold match_spaces_group. cbn [lstrip_by].
    destruct (digit_is_plain c Hd) as (-> & _).
    unfold match_group. simpl. rewrite Hd.
    destruct (take_digits r) as [d t]. reflexivity.
  - rewrite <- IH. rewrite re_search_cons.
    destruct (ascii_dec c "R") as [->|Hc].
    + cbn [match_here]. destruct (match_spaces_group r) as [g|] eqn:Hg.
      * symmetry. apply match_spaces_then_search. exact Hg.
      * reflexivity.
    + rewrite (match_here_not_R c r Hc). unfold match_spaces_group.
      cbn [lstrip_by]. destruct (is_space c).
      * destruct (match_group (lstrip_by is_space r)) as [g|] eqn:Hg.
        -- symmetry. apply match_spaces_then_search. exact Hg.
        -- reflexivity.
      * rewrite (match_group_not_digit c r Hd). reflexivity.
Qed.

Lemma all_chars_app f (s t : string) :
  all_chars f (s ++ t) = (all_chars f s && all_chars f t)%bool.
Proof.
  induction s as [|c s IH]; simpl; [reflexivity|].
  rewrite IH, andb_assoc. reflexivity.
Qed.

Lemma all_chars_impl (f g : ascii -> bool) (s : string) :
  (forall c, f c = true -> g c = true) ->
  all_chars f s = true -> all_chars g s = true.
Proof.
  intros Hfg. induction s as [|c s IH]; simpl; [reflexivity|].
  intros H. apply andb_true_iff in H as [Hc Hs].
  rewrite (Hfg c Hc), (IH Hs). reflexivity.
Qed.

Lemma plain_char (c : ascii) :
  plain c = true ->
  negb (is_float_space c) = true /\ negb (Ascii.eqb c "_") = true.
Proof. each_char c; intros H; try discriminate H; split; reflexivity. Qed.

Lemma lstrip_keeps sp (s : string) :
  all_chars (fun c => negb (sp c)) s = true -> lstrip_by sp s = s.
Proof.
  destruct s as [|c r]; simpl; [reflexivity|].
  intros H. apply andb_true_iff in H as [Hc _].
  apply negb_true_iff in Hc. rewrite Hc. reflexivity.
Qed.

Lemma rstrip_keeps sp (s : string) :
  all_chars (fun c => negb (sp c)) s = true -> rstrip_by sp s = s.
Proof.
  induction s as [|c r IH]; simpl; [reflexivity|].
  intros H. apply andb_true_iff in H as [Hc Hr].
  apply negb_true_iff in Hc. rewrite (IH Hr), Hc.
  destruct r; reflexivity.
Qed.

Lemma drop_underscores_keeps (s : string) : forall prev,
  Ascii.eqb prev "_" = false ->
  all_chars (fun c => negb (Ascii.eqb c "_")) s = true ->
  drop_underscores prev s = Some s.
Proof.
  induction s as [|c r IH]; intros prev Hprev; simpl.
  - rewrite Hprev. reflexivity.
  - intros H. apply andb_true_iff in H as [Hc Hr].
    apply negb_true_iff in Hc. rewrite Hc, Hprev. simpl.
    rewrite (IH c Hc Hr). reflexivity.
Qed.

Lemma take_digits_app (ds rest : string) :
  all_chars is_digit ds = true -> no_digit_ahead rest ->
  take_digits (ds ++ rest) = (ds, rest).
Proof.
  intros Hds Hrest. induction ds as [|c ds IH]; simpl.
  - destruct rest as [|c r]; simpl in *; [reflexivity|].
    rewrite Hrest. reflexivity.
  - simpl in Hds. apply andb_true_iff in Hds as [Hc Hds].
    rewrite Hc, (IH Hds). reflexivity.
Qed.

Lemma take_digits_spec (s : string) :
  s = (fst (take_digits s) ++ snd (take_digits s))%string
  /\ all_chars is_digit (fst (take_digits s)) = true
  /\ no_digit_ahead (snd (take_digits s)).
Proof.
  induction s as [|c r IH]; simpl; [auto|].
  destruct (is_digit c) eqn:Hc.
  - destruct (take_digits r) as [d t]. simpl in *.
    destruct IH as (-> & Hd & Ht). rewrite Hc, Hd. auto.
  - simpl. rewrite Hc. auto.
Qed.

Lemma match_fraction_not_point (c : ascii) (r : string) :
  c <> "."%char -> match_fraction (String c r) = EmptyString.
Proof. each_char c; intros H; try reflexivity. congruence. Qed.

Lemma match_fraction_shape (rest : string) :
  fraction_shape (match_fraction rest).
Proof.
  destruct rest as [|c r]; [left; reflexivity|].
  destruct (ascii_dec c ".") as [->|Hc].
  - destruct r as [|a [|b r]]; try (left; reflexivity).
    cbn [match_fraction].
    destruct (is_digit a) eqn:Ha, (is_digit b) eqn:Hb; simpl;
      try (left; reflexivity).
    right. exists a, b. auto.
  - rewrite (match_fraction_not_point c r Hc). left. reflexivity.
Qed.

Lemma fraction_no_digit_ahead (frac : string) :
  fraction_shape frac -> no_digit_ahead frac.
Proof. intros [-> | (a & b & _ & _ & ->)]; simpl; reflexivity. Qed.

Lemma fraction_plain (frac : string) :
  fraction_shape frac -> all_chars plain frac = true.
Proof.
  intros [-> | (a & b & Ha & Hb & ->)]; simpl; [reflexivity|].
  unfold plain. rewrite Ha, Hb. reflexivity.
Qed.

(** [float] never raises on a token, and returns the float nearest to the
    decimal number it denotes. *)
Lemma py_float_token (c : ascii) (ds frac : string) :
  all_chars is_digit (String c ds) = true ->
  fraction_shape frac ->
  py_float (String c ds ++ frac) = Some (token_value (String c ds ++ frac)).
Proof.
  intros Hds Hfrac. set (token := (String c ds ++ frac)%string).
  assert (Hplain : all_chars plain token = true).
  { unfold token. rewrite all_chars_app, (fraction_plain frac Hfrac), andb_true_r.
    apply (all_chars_impl is_digit); [|exact Hds].
    intros x Hx. unfold plain. rewrite Hx. reflexivity. }
  unfold py_float.
  rewrite (lstrip_keeps is_float_space token), (rstrip_keeps is_float_space token),
    (drop_underscores_keeps token);
    try reflexivity;
    try (apply (all_chars_impl plain); [intros x Hx; apply (plain_char x Hx) | exact Hplain]).
  assert (Hc : is_digit c = true)
    by (simpl in Hds; apply andb_true_iff in Hds; apply Hds).
  assert (Hparse : parse_decimal token = Some (token_value token)).
  { unfold parse_decimal, token_value, token.
    change (String c ds ++ frac)%string with (String c (ds ++ frac)).
    rewrite (sign_digit c _ Hc).
    change (String c (ds ++ frac)) with (String c ds ++ frac)%string.
    rewrite (take_digits_app _ _ Hds (fraction_no_digit_ahead _ Hfrac)).
    destruct Hfrac as [-> | (a & b & Ha & Hb & ->)].
    - reflexivity.
    - cbn. rewrite Ha, Hb. reflexivity. }
  rewrite Hparse. reflexivity.
Qed.

Lemma first_token_shape (s g : string) :
  first_numeric_token s = Some g ->
  exists c ds frac,
    g = (String c ds ++ frac)%string
    /\ all_chars is_digit (String c ds) = true
    /\ fraction_shape frac.
Proof.
  induction s as [|c r IH]; [discriminate|].
  cbn [first_numeric_token]. destruct (is_digit c) eqn:Hc; [|exact IH].
  simpl take_digits. rewrite Hc.
  destruct (take_digits_spec r) as (_ & Hd & _).
  destruct (take_digits r) as [d t]. simpl in Hd.
  intros [= <-]. exists c, d, (match_fraction t).
  split; [reflexivity|]. split; [|apply match_fraction_shape].
  simpl. rewrite Hc, Hd. reflexivity.
Qed.

Lemma first_token_none (s : string) :
  first_numeric_token s = None <-> any_char is_digit s = false.
Proof.
  induction s as [|c r IH]; simpl; [tauto|].
  destruct (is_digit c) eqn:Hc; simpl.
  - destruct (take_digits r). split; discriminate.
  - exact IH.
Qed.

Lemma commas_hide_no_digit (s : string) :
  any_char is_digit (replace_char "," EmptyString s) = any_char is_digit s.
Proof.
  induction s as [|c r IH]; simpl; [reflexivity|].
  destruct (Ascii.eqb_spec c ",") as [->|Hc]; simpl; rewrite IH; reflexivity.
Qed.

(** C5.  For every text, [sanitize_price] returns the float nearest to the
    decimal number denoted by the first numeric token of the text without
    its commas: the first run of digits, with a point and two digits when
    they follow it.  It returns [None] exactly when the text has no digit,
    which is the case of the empty text.  [R24.99] yields 24.99 and
    [Call for price] yields [None]. *)
Theorem sanitize_price_first_token :
  (forall price_text : string,
     sanitize_price price_text
     = option_map token_value
         (first_numeric_token (replace_char "," EmptyString price_text))
     /\ (sanitize_price price_text = None
         <-> any_char is_digit price_text = false))
  /\ sanitize_price "R24.99" = Some 24.99%float
  /\ sanitize_price "Call for price" = None
  /\ sanitize_price "" = None.
Proof.
  split; [|repeat split].
  intros price_text.
  assert (Heq : sanitize_price price_text
                = option_map token_value
                    (first_numeric_token
                       (replace_char "," EmptyString price_text))).
  { unfold sanitize_price. destruct price_text as [|c r]; [reflexivity|].
    cbn [is_empty]. rewrite re_search_first_token.
    destruct (first_numeric_token _) as [g|] eqn:Hg; [|reflexivity].
    apply first_token_shape in Hg as (x & ds & frac & -> & Hds & Hfrac).
    rewrite (py_float_token x ds frac Hds Hfrac). reflexivity. }
  split; [exact Heq|].
  rewrite Heq, <- commas_hide_no_digit, <- first_token_none.
  destruct (first_numeric_token _); simpl; split; congruence.
Qed.
End Sanitize.

(* ================================================================== *)
(** * Properties of [generate_mock_data_update] *)

Section Adapter.
Import PyStr PyNum PyDict Integrator.

Lemma len_cons {A} (x : A) (xs : list A) : len (x :: xs) = len xs + 1.
Proof. unfold len. simpl List.length. lia. Qed.

Lemma fold_price_step (products : list Product) : forall st,
  fold_left price_step products st
  = mkState (updated_products st)
            (updated_prices st
             ++ prices_of (next_product_id st) (next_price_id st) products)
            (next_product_id st)
            (next_price_id st + len products).
Proof.
  induction products as [|p ps IH]; intros st; simpl.
  - rewrite app_nil_r, Z.add_0_r. destruct st; reflexivity.
  - rewrite IH. simpl. rewrite <- app_assoc, len_cons. simpl.
    f_equal. lia.
Qed.

Lemma fold_product_step (items : list (string * BestPrice)) : forall st,
  let st' := fold_left product_step items st in
  updated_products st'
  = updated_products st ++ products_from (next_product_id st) items
  /\ updated_prices st'
     = updated_prices st
       ++ prices_from (next_product_id st) (next_price_id st) items.
Proof.
  induction items as [|item rest IH]; intros st; simpl.
  - rewrite !app_nil_r. auto.
  - destruct (IH (product_step st item)) as [Hp Hq].
    rewrite Hp, Hq. unfold product_step. rewrite fold_price_step. simpl.
    rewrite <- !app_assoc. auto.
Qed.

Lemma generate_products now best_prices out :
  generate_mock_data_update now best_prices = Some out ->
  MockData.products out = products_from 1 (firstn 20 best_prices)
  /\ MockData.prices out = prices_from 1 1 (firstn 20 best_prices).
Proof.
  unfold generate_mock_data_update.
  destruct (average_savings best_prices); [|discriminate].
  intros [= <-]. cbn [MockData.products MockData.prices].
  exact (fold_product_step (firstn 20 best_prices) initial_state).
Qed.

Lemma average_savings_total best_prices :
  exists avg, average_savings best_prices = Some avg.
Proof.
  destruct best_prices as [|item rest]; [simpl; eauto|].
  unfold average_savings, truediv, len.
  replace (is_zero (PyInt (Z.of_nat (List.length (item :: rest))))) with false
    by reflexivity.
  destruct (sum (map savings (values (item :: rest)))); eauto.
Qed.

(** The adapter never raises. *)
Lemma generate_total now best_prices :
  exists out, generate_mock_data_update now best_prices = Some out.
Proof.
  unfold generate_mock_data_update.
  destruct (average_savings_total best_prices) as [avg ->]. eauto.
Qed.

Lemma products_from_length items : forall product_id,
  List.length (products_from product_id items) = List.length items.
Proof.
  induction items as [|item rest IH]; intros product_id; simpl;
    [|rewrite IH]; reflexivity.
Qed.

Lemma products_from_ids items : forall k : nat,
  map ProductEntry.id (products_from (Z.of_nat k) items)
  = map (fun n => of_int (Z.of_nat n)) (seq k (List.length items)).
Proof.
  induction items as [|item rest IH]; intros k; simpl; [reflexivity|].
  f_equal. rewrite <- IH. f_equal. f_equal. lia.
Qed.

Lemma products_from_names items : forall product_id,
  map ProductEntry.name (products_from product_id items)
  = map (fun item => product_name (best_product (snd item))) items.
Proof.
  induction items as [|item rest IH]; intros product_id; simpl;
    [|rewrite IH]; reflexivity.
Qed.

Lemma prices_of_product_ids products : forall product_id price_id,
  map PriceEntry.productId (prices_of product_id price_id products)
  = repeat (of_int product_id) (List.length products).
Proof.
  induction products as [|p ps IH]; intros product_id price_id; simpl;
    [|rewrite IH]; reflexivity.
Qed.

Lemma prices_from_product_ids items : forall product_id price_id,
  map PriceEntry.productId (prices_from product_id price_id items)
  = flat_map (fun pair =>
                repeat (ProductEntry.id (fst pair))
                       (List.length (all_prices (snd (snd pair)))))
             (combine (products_from product_id items) items).
Proof.
  induction items as [|item rest IH]; intros product_id price_id; simpl;
    [reflexivity|].
  rewrite map_app, prices_of_product_ids, IH. reflexivity.
Qed.

Lemma prices_of_prices products : forall product_id price_id,
  map PriceEntry.price (prices_of product_id price_id products)
  = map current_price products.
Proof.
  induction products as [|p ps IH]; intros product_id price_id; simpl;
    [|rewrite IH]; reflexivity.
Qed.

Lemma prices_from_prices items : forall product_id price_id,
  map PriceEntry.price (prices_from product_id price_id items)
  = flat_map (fun item => map current_price (all_prices (snd item))) items.
Proof.
  induction items as [|item rest IH]; intros product_id price_id; simpl;
    [reflexivity|].
  rewrite map_app, prices_of_prices, IH. reflexivity.
Qed.

(** C9.  The adapter never raises, and it maps the first 20 groups of
    [best_prices], in their order, and no other: it emits one product entry
    for each of them, so at most 20, named after the [best_product] of the
    group and numbered ["1"], ["2"], ... in order; and for each of them it
    emits one price entry for every record of [all_prices], in order, whose
    [productId] is the [id] of the product entry of that group.  With the
    21 groups of [many_products], the ids are ["1"] to ["20"]. *)
Theorem adapter_emits_first_twenty :
  (forall (now : string) (best_prices : dict BestPrice),
     exists out,
       generate_mock_data_update now best_prices = Some out
       /\ (List.length (MockData.products out) <= 20)%nat
       /\ List.length (MockData.products out)
          = Nat.min 20 (List.length best_prices)
       /\ map ProductEntry.id (MockData.products out)
          = map (fun n => of_int (Z.of_nat n))
                (seq 1 (List.length (firstn 20 best_prices)))
       /\ map ProductEntry.name (MockData.products out)
          = map (fun item => product_name (best_product (snd item)))
                (firstn 20 best_prices)
       /\ map PriceEntry.productId (MockData.prices out)
          = flat_map (fun pair =>
                        repeat (ProductEntry.id (fst pair))
                               (List.length (all_prices (snd (snd pair)))))
                     (combine (MockData.products out) (firstn 20 best_prices))
       /\ map PriceEntry.price (MockData.prices out)
          = flat_map (fun item => map current_price (all_prices (snd item)))
                     (firstn 20 best_prices)
       /\ (forall e, In e (MockData.prices out) ->
             exists p, In p (MockData.products out)
                       /\ PriceEntry.productId e = ProductEntry.id p))
  /\ (List.length (find_best_prices many_products) = 21%nat
      /\ option_map (fun out => map ProductEntry.id (MockData.products out))
           (generate_mock_data_update "2025-06-01T08:00:00"
              (find_best_prices many_products))
         = Some ["1"; "2"; "3"; "4"; "5"; "6"; "7"; "8"; "9"; "10"; "11";
                 "12"; "13"; "14"; "15"; "16"; "17"; "18"; "19"; "20"]%string).
Proof.
  split; [|split; vm_compute; reflexivity].
  intros now best_prices.
  destruct (generate_total now best_prices) as [out Hout].
  exists out. split; [exact Hout|].
  destruct (generate_products _ _ _ Hout) as [Hp Hq].
  assert (Hlen : List.length (MockData.products out)
                 = Nat.min 20 (List.length best_prices))
    by (rewrite Hp, products_from_length; apply length_firstn).
  assert (Hids : map PriceEntry.productId (MockData.prices out)
          = flat_map (fun pair =>
                        repeat (ProductEntry.id (fst pair))
                               (List.length (all_prices (snd (snd pair)))))
                     (combine (MockData.products out) (firstn 20 best_prices)))
    by (rewrite Hp, Hq; apply prices_from_product_ids).
  split; [rewrite Hlen; apply Nat.le_min_l|]. split; [exact Hlen|].
  split; [rewrite Hp; apply (products_from_ids _ 1%nat)|].
  split; [rewrite Hp; apply products_from_names|].
  split; [exact Hids|].
  split; [rewrite Hq; apply prices_from_prices|].
  intros e He.
  apply (in_map PriceEntry.productId) in He. rewrite Hids in He.
  apply in_flat_map in He as ([p item] & Hpair & Hrep).
  apply repeat_spec in Hrep. exists p. split; [|exact Hrep].
  apply in_combine_l in Hpair. exact Hpair.
Qed.

(** C9 on the two groups of [tied_bananas]. *)
Lemma adapter_emits_first_twenty_witness :
  exists out,
    generate_mock_data_update "2025-06-01T08:00:00"
                              (find_best_prices tied_bananas) = Some out
    /\ map ProductEntry.id (MockData.products out) = ["1"; "2"]%string
    /\ map ProductEntry.name (MockData.products out)
       = [" bananas"; "White Bread"]%string
    /\ map PriceEntry.productId (MockData.prices out)
       = ["1"; "1"; "1"; "2"]%string.
Proof.
  destruct (proj1 adapter_emits_first_twenty "2025-06-01T08:00:00"%string
                  (find_best_prices tied_bananas))
    as (out & Hout & _ & Hlen & Hids & Hnames & Hprices & _).
  exists out. split; [exact Hout|]. split; [exact Hids|].
  split; [exact Hnames|].
  rewrite Hprices. clear Hprices Hout Hnames.
  change (Nat.min 20 _) with 2%nat in Hlen.
  change (map _ (seq 1 _)) with ["1"; "2"]%string in Hids.
  destruct (MockData.products out) as [|p1 [|p2 [|p3 rest]]];
    try discriminate Hlen.
  injection Hids as H1 H2.
  set (items := firstn 20 (find_best_prices tied_bananas)).
  vm_compute in items. subst items.
  cbn [combine flat_map fst snd all_prices List.length repeat app].
  rewrite H1, H2. reflexivity.
Defined.

(** C10.  The adapter never raises, whatever [best_prices] is.  With no
    group, [avgSavings] is the [int] 0 and nothing is divided.  With at
    least one group, [avgSavings] is a [float], the sum of [savings] over
    all the groups of [best_prices] divided by their number: the groups
    after the twentieth count as well.  With the 21 groups of
    [many_products], of which only the last has savings (of 21.0), the
    summary has 20 products and [avgSavings = 1.0], while the mean over
    the 20 emitted groups is 0.0. *)
Theorem average_savings_over_all_groups :
  (forall (now : string) (best_prices : dict BestPrice),
     exists out,
       generate_mock_data_update now best_prices = Some out
       /\ (best_prices = [] ->
           Summary.avgSavings (MockData.summary out) = PyInt 0)
       /\ (best_prices <> [] ->
           Some (Summary.avgSavings (MockData.summary out))
           = mean (map savings (values best_prices))
           /\ exists f,
                Summary.avgSavings (MockData.summary out) = PyFloat f))
  /\ (let best_prices := find_best_prices many_products in
      option_map (fun out => (Summary.totalProducts (MockData.summary out),
                              Summary.avgSavings (MockData.summary out)))
                 (generate_mock_data_update "2025-06-01T08:00:00" best_prices)
      = Some (20, PyFloat 1)
      /\ mean (map savings (values (firstn 20 best_prices)))
         = Some (PyFloat 0)).
Proof.
  split; [|split; vm_compute; reflexivity].
  intros now best_prices.
  destruct (generate_total now best_prices) as [out Hout].
  exists out. split; [exact Hout|].
  unfold generate_mock_data_update in Hout.
  destruct (average_savings best_prices) as [avg|] eqn:Havg; [|discriminate].
  injection Hout as <-. cbn [MockData.summary Summary.avgSavings].
  split.
  - intros ->. simpl in Havg. congruence.
  - intros Hne. destruct best_prices as [|item rest]; [congruence|].
    unfold average_savings in Havg. unfold mean.
    replace (len (map savings (values (item :: rest))))
      with (len (item :: rest))
      by (unfold len, values; rewrite !length_map; reflexivity).
    split; [symmetry; exact Havg|].
    unfold truediv in Havg.
    destruct (is_zero (PyInt (len (item :: rest)))); [discriminate|].
    destruct (sum (map savings (values (item :: rest))));
      injection Havg as <-; eauto.
Qed.

(** C10 on the two groups of [tied_bananas], whose savings are 2.0 and 0. *)
Lemma average_savings_over_all_groups_witness :
  exists out,
    generate_mock_data_update "2025-06-01T08:00:00"
                              (find_best_prices tied_bananas) = Some out
    /\ find_best_prices tied_bananas <> []
    /\ Some (Summary.avgSavings (MockData.summary out))
       = mean [PyFloat 2; PyInt 0]
    /\ Summary.avgSavings (MockData.summary out) = PyFloat 1.
Proof.
  destruct (proj1 average_savings_over_all_groups "2025-06-01T08:00:00"%string
                  (find_best_prices tied_bananas))
    as (out & Hout & _ & Hmean).
  assert (Hne : find_best_prices tied_bananas <> []) by discriminate.
  destruct (Hmean Hne) as [Havg _].
  exists out. split; [exact Hout|]. split; [exact Hne|].
  split; [exact Havg|].
  change (mean (map savings (values (find_best_prices tied_bananas))))
    with (Some (PyFloat 1)) in Havg.
  injection Havg as ->. reflexivity.
Defined.

End Adapter.

(* ================================================================== *)
(** * Properties of [sanitize_text] and [generate_product_id] *)

Section TextCleaning.
Import PyStr PyNum PyFloat PyMore Extractor ExtractorRest.
Local Open Scope string_scope.

Local Ltac each_char c := destruct c as [[] [] [] [] [] [] [] []].

Lemma take_length (n : nat) (s : string) :
  String.length (take n s) = Nat.min n (String.length s).
Proof.
  revert s. induction n as [|n IH]; intros [|c r]; simpl; auto.
Qed.

Lemma take_all (n : nat) (s : string) :
  (String.length s <= n)%nat -> take n s = s.
Proof.
  revert s. induction n as [|n IH]; intros [|c r]; simpl; intros H;
    try reflexivity; try lia.
  rewrite IH by lia. reflexivity.
Qed.

Lemma spaced_weaken (s : string) : spaced true s = true -> spaced false s = true.
Proof.
  destruct s as [|c r]; simpl; [reflexivity|].
  destruct (is_space c); [|auto]. rewrite andb_false_r. discriminate.
Qed.

Lemma spaced_take (n : nat) : forall (b : bool) (s : string),
  spaced b s = true -> spaced b (take n s) = true.
Proof.
  induction n as [|n IH]; intros b [|c r]; simpl; try reflexivity.
  destruct (is_space c).
  - intros H. apply andb_true_iff in H as [H1 H2]. rewrite H1. simpl. auto.
  - apply IH.
Qed.

Lemma collapse_spaced (s : string) :
  spaced true (collapse_spaces true s) = true
  /\ spaced false (collapse_spaces false s) = true.
Proof.
  induction s as [|c r [IH1 IH2]]; simpl; [auto|].
  destruct (is_space c) eqn:Hc; simpl.
  - split; [exact IH1|]. rewrite IH1. reflexivity.
  - rewrite Hc. auto.
Qed.

Lemma collapse_fixed (s : string) :
  (spaced true s = true -> collapse_spaces true s = s)
  /\ (spaced false s = true -> collapse_spaces false s = s).
Proof.
  induction s as [|c r [IH1 IH2]]; simpl; [auto|].
  destruct (is_space c) eqn:Hc.
  - split; intros H; apply andb_true_iff in H as [H H3];
      apply andb_true_iff in H as [H1 H2]; [discriminate|].
    apply Ascii.eqb_eq in H1. subst c. rewrite (IH1 H3). reflexivity.
  - split; intros H; rewrite (IH2 H); reflexivity.
Qed.

Lemma rstrip_ends_well (s : string) :
  ends_well (rstrip_by is_space s) = true.
Proof.
  induction s as [|c r IH]; simpl; [reflexivity|].
  destruct (rstrip_by is_space r) as [|d r'] eqn:Hr.
  - destruct (is_space c) eqn:Hc; simpl; [reflexivity|]. rewrite Hc. reflexivity.
  - exact IH.
Qed.

Lemma ends_well_rstrip (s : string) :
  ends_well s = true -> rstrip_by is_space s = s.
Proof.
  induction s as [|c r IH]; simpl; [reflexivity|].
  destruct r as [|d r'].
  - simpl. intros H. apply negb_true_iff in H. rewrite H. reflexivity.
  - intros H. rewrite (IH H). reflexivity.
Qed.

Lemma collapse_is_empty (s : string) : forall b,
  ends_well s = true -> is_empty (collapse_spaces b s) = is_empty s.
Proof.
  induction s as [|c r IH]; intros b; simpl; [reflexivity|].
  destruct r as [|d r'].
  - intros H. apply negb_true_iff in H. rewrite H. reflexivity.
  - intros H. destruct (is_space c); [|reflexivity].
    destruct b; [|reflexivity]. rewrite (IH true H). reflexivity.
Qed.

Lemma collapse_ends_well (s : string) : forall b,
  ends_well s = true -> ends_well (collapse_spaces b s) = true.
Proof.
  induction s as [|c r IH]; intros b; [reflexivity|].
  destruct r as [|d r'].
  - simpl. intros H. rewrite (proj1 (negb_true_iff _) H). simpl. exact H.
  - intros H. change (ends_well (String d r') = true) in H.
    pose proof (collapse_is_empty (String d r')) as Hne.
    remember (String d r') as t eqn:Ht.
    assert (Hcons : forall x b', ends_well (String x (collapse_spaces b' t)) = true).
    { intros x b'. specialize (Hne b' H). specialize (IH b' H).
      destruct (collapse_spaces b' t) eqn:Hx;
        [rewrite Ht in Hne; discriminate Hne | exact IH]. }
    simpl. destruct (is_space c); [destruct b|]; auto.
Qed.

Lemma lstrip_head (s : string) :
  match lstrip_by is_space s with
  | EmptyString => True
  | String c _ => is_space c = false
  end.
Proof.
  induction s as [|c r IH]; simpl; [exact I|].
  destruct (is_space c) eqn:Hc; [exact IH | exact Hc].
Qed.

Lemma rstrip_head (s : string) :
  match s with
  | EmptyString => True
  | String c _ => is_space c = false
  end ->
  match rstrip_by is_space s with
  | EmptyString => True
  | String c _ => is_space c = false
  end.
Proof.
  destruct s as [|c r]; simpl; [auto|]. intros Hc.
  destruct (rstrip_by is_space r); [rewrite Hc|]; exact Hc.
Qed.

Lemma strip_head (s : string) :
  match strip s with
  | EmptyString => True
  | String c _ => is_space c = false
  end.
Proof. apply rstrip_head, lstrip_head. Qed.

Lemma collapse_strip_spaced (s : string) :
  spaced true (collapse_spaces false (strip s)) = true.
Proof.
  pose proof (strip_head s) as Hh. destruct (strip s) as [|c r]; [reflexivity|].
  simpl. rewrite Hh. simpl. rewrite Hh. apply collapse_spaced.
Qed.

(** X1.  The result of [sanitize_text] has at most 200 characters; its
    white space is made of single spaces, none of which starts the text or
    follows another space. *)
Theorem sanitize_text_is_short_and_tidy (text : string) :
  (String.length (sanitize_text text) <= 200)%nat
  /\ spaced true (sanitize_text text) = true.
Proof.
  unfold sanitize_text. destruct (is_empty text); [simpl; split; [lia|auto]|].
  split.
  - rewrite take_length. apply Nat.le_min_l.
  - apply spaced_take, collapse_strip_spaced.
Qed.

(** X2.  When the result of [sanitize_text] is shorter than 200 characters,
    nothing was cut off: the result does not end with white space, and
    cleaning it again leaves it as it is. *)
Theorem sanitize_text_twice (text : string) :
  (String.length (sanitize_text text) < 200)%nat ->
  ends_well (sanitize_text text) = true
  /\ sanitize_text (sanitize_text text) = sanitize_text text.
Proof.
  destruct (is_empty text) eqn:He.
  - destruct text; [|discriminate He]. intros _. split; reflexivity.
  - set (u := collapse_spaces false (strip text)).
    assert (Hres : sanitize_text text = take 200 u)
      by (unfold sanitize_text; rewrite He; reflexivity).
    rewrite Hres, take_length. intros Hlen.
    assert (Hu : take 200 u = u) by (apply take_all; lia).
    assert (Hends : ends_well u = true)
      by (apply collapse_ends_well, rstrip_ends_well).
    assert (Hsp : spaced true u = true) by apply collapse_strip_spaced.
    rewrite Hu. split; [exact Hends|]. clearbody u.
    unfold sanitize_text. destruct (is_empty u) eqn:Heu;
      [destruct u; [reflexivity | discriminate Heu]|].
    assert (Hstrip : strip u = u).
    { unfold strip. replace (lstrip_by is_space u) with u.
      - apply ends_well_rstrip. exact Hends.
      - destruct u as [|c r]; [reflexivity|]. simpl in *.
        destruct (is_space c); [|reflexivity].
        rewrite andb_false_r in Hsp. discriminate. }
    rewrite Hstrip, (proj2 (collapse_fixed u) (spaced_weaken u Hsp)).
    exact Hu.
Qed.

(** X2 on a text that needs cleaning. *)
Lemma sanitize_text_twice_witness :
  (String.length (sanitize_text "  Full   Cream  Milk ") < 200)%nat
  /\ sanitize_text "  Full   Cream  Milk " = "Full Cream Milk"
  /\ sanitize_text "Full Cream Milk" = "Full Cream Milk".
Proof.
  assert (H : (String.length (sanitize_text "  Full   Cream  Milk ") < 200)%nat) by (vm_compute; lia).
  split; [exact H|]. split; [reflexivity|].
  exact (proj2 (sanitize_text_twice "  Full   Cream  Milk " H)).
Defined.

Lemma uint_digits (d : Decimal.uint) :
  all_chars is_digit (NilEmpty.string_of_uint d) = true.
Proof. induction d; simpl; auto. Qed.

Lemma of_int_chars (z : Z) : all_chars id_or_dash (of_int z) = true.
Proof.
  assert (Hd : forall d, all_chars id_or_dash (NilZero.string_of_uint d) = true).
  { intros d. apply (all_chars_impl is_digit).
    - intros c Hc. unfold id_or_dash, is_id_char. rewrite Hc.
      rewrite orb_true_r. reflexivity.
    - destruct d; try apply uint_digits. reflexivity. }
  unfold of_int. destruct (Z.to_int z); simpl; [|unfold id_or_dash at 1; simpl];
    apply Hd.
Qed.

Lemma dash_others_chars (s : string) :
  all_chars id_or_dash (dash_others s) = true.
Proof.
  induction s as [|c r IH]; simpl; [reflexivity|]. rewrite IH, andb_true_r.
  unfold id_or_dash. destruct (is_id_char c) eqn:Hc; [rewrite Hc|]; reflexivity.
Qed.

Lemma dash_others_length (s : string) :
  String.length (dash_others s) = String.length s.
Proof. induction s as [|c r IH]; simpl; [|rewrite IH]; reflexivity. Qed.

Lemma append_length (s t : string) :
  String.length (s ++ t) = (String.length s + String.length t)%nat.
Proof. induction s as [|c r IH]; simpl; [|rewrite IH]; reflexivity. Qed.

Lemma lower_length (s : string) : String.length (lower s) = String.length s.
Proof. induction s as [|c r IH]; simpl; [|rewrite IH]; reflexivity. Qed.

(** X3.  Whatever the retailer, the product name and the time stamp are,
    the product id is made of lower-case letters, digits and dashes only,
    and every character of the retailer and of the name has one character
    in it: its length is the two lengths, two dashes and the length of the
    time stamp. *)
Theorem product_id_alphabet (retailer product_name : string) (timestamp : Z) :
  all_chars id_or_dash (generate_product_id retailer product_name timestamp)
  = true
  /\ String.length (generate_product_id retailer product_name timestamp)
     = (String.length retailer + String.length product_name + 2
        + String.length (of_int timestamp))%nat.
Proof.
  unfold generate_product_id. split.
  - rewrite !all_chars_app, !dash_others_chars, of_int_chars. reflexivity.
  - rewrite !append_length, !dash_others_length, !lower_length.
    simpl. lia.
Qed.

End TextCleaning.

(* ================================================================== *)
(** * More properties of [parse_availability] *)

Section AvailabilityRule.
Import PyStr Extractor.
Local Open Scope string_scope.

Local Ltac each_char c := destruct c as [[] [] [] [] [] [] [] []].

Lemma contains_cons (sub : string) (c : ascii) (r : string) :
  contains sub (String c r)
  = (starts_with sub (String c r) || contains sub r)%bool.
Proof. destruct sub; reflexivity. Qed.

(** A text that contains [a ++ x] contains [x]. *)
Lemma contains_tail (a : ascii) (x s : string) :
  contains (String a x) s = true -> contains x s = true.
Proof.
  induction s as [|c r IH]; [discriminate|].
  rewrite !contains_cons. intros H. apply orb_true_iff in H as [H | H].
  - simpl in H. apply andb_true_iff in H as [_ H].
    apply orb_true_iff. right.
    destruct r as [|d r']; destruct x; simpl in *; try discriminate;
      try reflexivity.
    rewrite H. reflexivity.
  - apply orb_true_iff. right. exact (IH H).
Qed.

Lemma lower_is_empty (s : string) : is_empty (lower s) = is_empty s.
Proof. destruct s; reflexivity. Qed.

(** X4.  A text that mentions [unavailable], in any letter case, is
    classified [in_stock]: the in-stock keyword [available] is part of it
    and is tried first, so the keyword [unavailable] never decides. *)
Theorem unavailable_is_in_stock (availability_text : string) :
  contains "unavailable" (lower availability_text) = true ->
  parse_availability availability_text = "in_stock".
Proof.
  intros H. unfold parse_availability.
  destruct availability_text as [|c r]; [discriminate H|].
  cbn [is_empty]. apply contains_tail, contains_tail in H.
  unfold any_in, in_stock_terms. cbn [existsb]. rewrite H.
  rewrite orb_true_r. reflexivity.
Qed.

(** X4 on a text of a product page. *)
Lemma unavailable_is_in_stock_witness :
  contains "unavailable" (lower "Currently UNAVAILABLE online") = true
  /\ parse_availability "Currently UNAVAILABLE online" = "in_stock".
Proof.
  split; [reflexivity|].
  exact (unavailable_is_in_stock "Currently UNAVAILABLE online" eq_refl).
Defined.


(** X6.  Two texts that differ in letter case only are classified alike. *)
Theorem availability_ignores_case (text1 text2 : string) :
  lower text1 = lower text2 ->
  parse_availability text1 = parse_availability text2.
Proof.
  intros H. unfold parse_availability.
  rewrite <- (lower_is_empty text1), <- (lower_is_empty text2), H.
  reflexivity.
Qed.

(** X6 on two spellings of one notice. *)
Lemma availability_ignores_case_witness :
  lower "Only A Few LEFT" = lower "only a few left"
  /\ parse_availability "Only A Few LEFT" = parse_availability "only a few left".
Proof.
  split; [reflexivity|].
  exact (availability_ignores_case "Only A Few LEFT" "only a few left" eq_refl).
Defined.

End AvailabilityRule.

(* ================================================================== *)
(** * More properties of [validate_data_integrity], and [extract_all_data] *)

Section Batches.
Import PyStr PyNum PyDict PyMore Extractor ExtractorRest.

Lemma check_product_bound (i : nat) (product : Product) :
  (List.length (check_product i product) <= 4)%nat
  /\ Forall (fun e => error_index e = i) (check_product i product).
Proof.
  unfold check_product.
  destruct (is_empty (product_name product)),
    (price_rejected (current_price product)),
    (is_empty (retailer product)),
    (negb (in_list (availability_status product) availability_enum));
    simpl; split; try lia; repeat constructor.
Qed.

Lemma check_from_bound (products : list Product) : forall i,
  (List.length (check_from i products) <= 4 * List.length products)%nat
  /\ Forall (fun e => (i <= error_index e < i + List.length products)%nat)
            (check_from i products).
Proof.
  induction products as [|product rest IH]; intros i; simpl.
  - split; [lia | constructor].
  - destruct (check_product_bound i product) as [Hlen Hidx].
    destruct (IH (S i)) as [Hlen' Hidx'].
    rewrite length_app. split; [lia|].
    apply Forall_app. split.
    + eapply Forall_impl; [|exact Hidx]. intros e He. simpl in *. lia.
    + eapply Forall_impl; [|exact Hidx']. intros e He. simpl in *. lia.
Qed.

(** X7.  The validator reports at most four errors for each record, and
    every error names the position of a record of the batch. *)
Theorem errors_are_bounded (products : list Product) :
  (List.length (snd (validate_data_integrity products))
   <= 4 * List.length products)%nat
  /\ Forall (fun e => (error_index e < List.length products)%nat)
            (snd (validate_data_integrity products)).
Proof.
  unfold validate_data_integrity. simpl.
  destruct (check_from_bound products 0) as [Hlen Hidx].
  split; [exact Hlen|]. eapply Forall_impl; [|exact Hidx].
  simpl. intros e He. lia.
Qed.

Lemma check_from_app (xs ys : list Product) : forall i,
  check_from i (xs ++ ys)
  = check_from i xs ++ check_from (i + List.length xs) ys.
Proof.
  induction xs as [|x xs IH]; intros i; simpl.
  - rewrite Nat.add_0_r. reflexivity.
  - rewrite IH, <- app_assoc, Nat.add_succ_r. reflexivity.
Qed.

Lemma check_from_shift (products : list Product) (i j : nat) :
  check_from i products = [] <-> check_from j products = [].
Proof. rewrite !check_from_nil. reflexivity. Qed.

(** X8.  Two batches put together are valid exactly when each of them is,
    and the errors of the first batch come first, unchanged. *)
Theorem validity_of_joined_batches (xs ys : list Product) :
  fst (validate_data_integrity (xs ++ ys))
  = (fst (validate_data_integrity xs) && fst (validate_data_integrity ys))%bool
  /\ snd (validate_data_integrity (xs ++ ys))
     = snd (validate_data_integrity xs) ++ check_from (List.length xs) ys.
Proof.
  unfold validate_data_integrity. simpl. rewrite check_from_app. simpl.
  split; [|reflexivity].
  pose proof (check_from_shift ys (List.length xs) 0) as Hshift.
  destruct (check_from 0 xs) as [|e es]; simpl; [|reflexivity].
  destruct (check_from (List.length xs) ys) as [|e es],
    (check_from 0 ys) as [|e' es']; simpl; try reflexivity.
  - destruct Hshift as [H _]. discriminate (H eq_refl).
  - destruct Hshift as [_ H]. discriminate (H eq_refl).
Qed.


Lemma extract_step_products (run : Extraction) (batch : string * list Product) :
  all_products (extract_step run batch) = all_products run ++ valid_part batch.
Proof.
  destruct batch as [key products]. unfold extract_step, valid_part.
  cbn [snd]. destruct products as [|p ps].
  - simpl. rewrite app_nil_r. reflexivity.
  - destruct (validate_data_integrity (p :: ps)) as [[] errors]; simpl;
      [|rewrite app_nil_r]; reflexivity.
Qed.

Lemma extract_fold (scraped : list (string * list Product)) : forall run,
  all_products (fold_left extract_step scraped run)
  = all_products run ++ flat_map valid_part scraped.
Proof.
  induction scraped as [|batch rest IH]; intros run; simpl.
  - rewrite app_nil_r. reflexivity.
  - rewrite IH, extract_step_products, <- app_assoc. reflexivity.
Qed.

(** X10.  The products that [extract_all_data] merges are the valid
    batches, whole and in the order of the retailers: a batch with an
    invalid record adds nothing.  So every merged product has a name, a
    price that is above 0 or is NaN, a retailer and one of the four
    statuses. *)
Theorem merged_products_are_the_valid_batches
    (scraped : list (string * list Product)) :
  all_products (extract_all_data scraped) = flat_map valid_part scraped
  /\ Forall accepted (all_products (extract_all_data scraped)).
Proof.
  assert (Heq : all_products (extract_all_data scraped)
                = flat_map valid_part scraped)
    by apply (extract_fold scraped (mkExtraction [] [] [])).
  split; [exact Heq|]. rewrite Heq. apply Forall_forall.
  intros p Hp. apply in_flat_map in Hp as (batch & _ & Hp).
  unfold valid_part in Hp.
  destruct (fst (validate_data_integrity (snd batch))) eqn:Hv; [|destruct Hp].
  apply valid_iff_no_errors in Hv. apply no_errors_iff in Hv.
  rewrite Forall_forall in Hv. apply Hv. exact Hp.
Qed.

Lemma validate_nil : validate_data_integrity [] = (true, []).
Proof. reflexivity. Qed.

Lemma extract_step_files (run : Extraction) (batch : string * list Product) :
  saved (extract_step run batch) = saved run ++ saved_part batch
  /\ error_files (extract_step run batch)
     = error_files run ++ error_part batch.
Proof.
  destruct batch as [key products].
  unfold extract_step, saved_part, error_part. cbn [fst snd].
  destruct products as [|p ps].
  - rewrite validate_nil. simpl. rewrite !app_nil_r. split; reflexivity.
  - destruct (validate_data_integrity (p :: ps)) as [[] errors]; simpl;
      rewrite ?app_nil_r; split; reflexivity.
Qed.

Lemma extract_fold_files (scraped : list (string * list Product)) :
  forall run,
  saved (fold_left extract_step scraped run)
  = saved run ++ flat_map saved_part scraped
  /\ error_files (fold_left extract_step scraped run)
     = error_files run ++ flat_map error_part scraped.
Proof.
  induction scraped as [|batch rest IH]; intros run; simpl.
  - rewrite !app_nil_r. split; reflexivity.
  - destruct (IH (extract_step run batch)) as [-> ->].
    destruct (extract_step_files run batch) as [-> ->].
    rewrite <- !app_assoc. split; reflexivity.
Qed.

(** X22.  [extract_all_data] saves a batch to CSV exactly when it has
    products and is valid, and writes an error file for it exactly when it
    is not valid, so never both; an error file is never empty.  The merged
    products are the saved batches put together, and the batches saved or
    reported are no more than the retailers scraped. *)
Theorem batches_are_saved_or_reported
    (scraped : list (string * list Product)) :
  let run := extract_all_data scraped in
  (forall batch, In batch (saved run)
     <-> In batch scraped /\ snd batch <> []
         /\ fst (validate_data_integrity (snd batch)) = true)
  /\ (forall key errors, In (key, errors) (error_files run)
        <-> exists products,
              In (key, products) scraped
              /\ validate_data_integrity products = (false, errors))
  /\ (forall key errors, In (key, errors) (error_files run) -> errors <> [])
  /\ all_products run = flat_map snd (saved run)
  /\ (List.length (saved run) + List.length (error_files run)
      <= List.length scraped)%nat.
Proof.
  intros run.
  destruct (extract_fold_files scraped (mkExtraction [] [] []))
    as [Hsaved Herrors].
  cbn [saved error_files app] in Hsaved, Herrors.
  fold (extract_all_data scraped) in Hsaved, Herrors. fold run in Hsaved, Herrors.
  assert (Hreported : forall key errors, In (key, errors) (error_files run)
            <-> exists products,
                  In (key, products) scraped
                  /\ validate_data_integrity products = (false, errors)).
  { intros key errors. rewrite Herrors, in_flat_map. split.
    - intros ([k products] & Hin & Hpart). unfold error_part in Hpart.
      cbn [fst snd] in Hpart.
      destruct (validate_data_integrity products) as [[] errs] eqn:Hv;
        simpl in Hpart; [destruct Hpart|].
      destruct Hpart as [[= <- <-] | []].
      exists products. split; assumption.
    - intros (products & Hin & Hv). exists (key, products).
      split; [exact Hin|]. unfold error_part. cbn [fst snd].
      rewrite Hv. left. reflexivity. }
  split; [|split; [exact Hreported|split; [|split]]].
  - intros batch. rewrite Hsaved, in_flat_map. split.
    + intros (b & Hin & Hpart). unfold saved_part in Hpart.
      destruct (snd b) as [|p ps] eqn:Hb; [destruct Hpart|].
      destruct (fst (validate_data_integrity (p :: ps))) eqn:Hv;
        [|destruct Hpart].
      destruct Hpart as [<- | []]. rewrite Hb.
      repeat split; [exact Hin | discriminate | exact Hv].
    + intros (Hin & Hne & Hv). exists batch. split; [exact Hin|].
      unfold saved_part. destruct (snd batch) as [|p ps]; [contradiction|].
      rewrite Hv. left. reflexivity.
  - intros key errors Hin Hnil.
    apply Hreported in Hin as (products & _ & Hv). subst errors.
    assert (H : snd (validate_data_integrity products) = [])
      by (rewrite Hv; reflexivity).
    apply valid_iff_no_errors in H. rewrite Hv in H. discriminate H.
  - unfold run at 1. unfold extract_all_data.
    rewrite extract_fold, Hsaved. cbn [all_products app].
    clear. induction scraped as [|[key products] rest IH]; simpl;
      [reflexivity|].
    rewrite flat_map_app, <- IH. f_equal.
    unfold valid_part, saved_part. cbn [snd].
    destruct products as [|p ps]; [rewrite validate_nil; reflexivity|].
    destruct (fst (validate_data_integrity (p :: ps))); simpl;
      rewrite ?app_nil_r; reflexivity.
  - rewrite Hsaved, Herrors. clear.
    induction scraped as [|[key products] rest IH]; simpl; [lia|].
    rewrite !length_app. unfold saved_part at 1, error_part at 1.
    cbn [fst snd]. destruct products as [|p ps];
      [rewrite validate_nil; simpl; lia|].
    destruct (fst (validate_data_integrity (p :: ps))); simpl; lia.
Qed.

End Batches.

(* ================================================================== *)
(** * Properties of the counts of [generate_summary_report] *)

Section Counting.
Import PyStr PyNum PyDict PyMore Extractor ExtractorRest.

Lemma increment_get (k k' : string) (counts : dict Z) :
  get k' (increment k counts)
  = if String.eqb k k' then Some (get_default k 0 counts + 1)
    else get k' counts.
Proof.
  unfold increment, mem, get_default.
  destruct (String.eqb_spec k k') as [<-|Hne].
  - rewrite get_set_same. f_equal. f_equal.
    destruct (get k counts) eqn:Hg; simpl.
    + rewrite Hg. reflexivity.
    + rewrite get_set_same. reflexivity.
  - rewrite get_set_other by assumption.
    destruct (get k counts); simpl; [reflexivity|].
    apply get_set_other. assumption.
Qed.

Lemma increment_keys (k : string) (counts : dict Z) :
  keys (increment k counts)
  = if mem k counts then keys counts else keys counts ++ [k].
Proof.
  unfold increment, mem, get_default.
  destruct (get k counts) eqn:Hg; simpl.
  - apply keys_set_old. congruence.
  - rewrite keys_set_old by (rewrite get_set_same; discriminate).
    rewrite (set_new _ _ _ Hg). unfold keys. rewrite map_app. reflexivity.
Qed.

Lemma sum_set (k : string) (v : Z) (counts : dict Z) :
  fold_right Z.add 0 (values (set k v counts))
  = fold_right Z.add 0 (values counts) - get_default k 0 counts + v.
Proof.
  unfold get_default.
  induction counts as [|[k' v'] counts IH]; simpl; [lia|].
  destruct (String.eqb k k'); simpl; lia.
Qed.

Lemma increment_sum (k : string) (counts : dict Z) :
  fold_right Z.add 0 (values (increment k counts))
  = fold_right Z.add 0 (values counts) + 1.
Proof.
  unfold increment, mem. rewrite sum_set.
  destruct (get k counts) as [old|] eqn:Hg; simpl; [lia|].
  rewrite sum_set. unfold get_default at 1. rewrite Hg. lia.
Qed.

Lemma tallies_step (seen : list string) (k : string) (counts : dict Z) :
  tallies seen counts -> tallies (seen ++ [k]) (increment k counts).
Proof.
  intros (Hnd & Hget & Hsum). split; [|split].
  - rewrite increment_keys. unfold mem.
    destruct (get k counts) eqn:Hg; [assumption|].
    apply get_None_keys in Hg. apply NoDup_snoc; assumption.
  - intros k'. rewrite increment_get, count_occ_app. simpl.
    destruct (String.eqb_spec k k') as [<-|Hne].
    + unfold get_default. rewrite Hget.
      destruct (string_dec k k) as [_|Hk]; [|congruence].
      destruct (count_occ string_dec seen k) as [|n]; simpl; f_equal; lia.
    + destruct (string_dec k k') as [Hk|_]; [congruence|].
      rewrite Nat.add_0_r. apply Hget.
  - rewrite increment_sum, Hsum, length_app. simpl. lia.
Qed.

Lemma tallies_fold (names : list string) : forall seen counts,
  tallies seen counts ->
  tallies (seen ++ names) (fold_left (fun d k => increment k d) names counts).
Proof.
  induction names as [|k names IH]; intros seen counts H; simpl.
  - rewrite app_nil_r. exact H.
  - replace (seen ++ k :: names) with ((seen ++ [k]) ++ names)
      by (rewrite <- app_assoc; reflexivity).
    apply IH, tallies_step, H.
Qed.

Lemma summary_counts_fold (products : list Product) : forall rs cs,
  fold_left count_step products (rs, cs)
  = (fold_left (fun d k => increment k d) (map retailer products) rs,
     fold_left (fun d k => increment k d) (map category products) cs).
Proof.
  induction products as [|p ps IH]; intros rs cs; simpl; [reflexivity|].
  apply IH.
Qed.

(** X11.  The summary counts the products by retailer and by category:
    each name has its number of products, a name without product has no
    entry, no name has two entries, and the counts of either dictionary add
    up to the number of products. *)
Theorem summary_counts_tally (products : list Product) :
  tallies (map retailer products) (fst (summary_counts products))
  /\ tallies (map category products) (snd (summary_counts products)).
Proof.
  unfold summary_counts. rewrite summary_counts_fold. simpl.
  assert (H0 : tallies [] []) by (repeat split; constructor).
  split.
  - apply (tallies_fold (map retailer products) [] [] H0).
  - apply (tallies_fold (map category products) [] [] H0).
Qed.

End Counting.

(* ================================================================== *)
(** * Properties of [find_latest_csv] and more of [find_best_prices] *)

Section Groups.
Import PyStr PyNum PyFloat PyDict PyMore Integrator IntegratorRest.
Local Open Scope float_scope.

Lemma SFleb_trans x y z :
  SFleb x y = true -> SFleb y z = true -> SFleb x z = true.
Proof.
  unfold SFleb.
  destruct x as [[]|[]| |[] ? ?], y as [[]|[]| |[] ? ?], z as [[]|[]| |[] ? ?];
    simpl; intros H1 H2; try discriminate; try reflexivity;
    repeat match goal with
    | H : context [Z.compare ?a ?b] |- _ => destruct (Z.compare_spec a b)
    | |- context [Z.compare ?a ?b] => destruct (Z.compare_spec a b)
    | H : context [Pos.compare_cont Eq ?a ?b] |- _ =>
        change (Pos.compare_cont Eq a b) with (Pos.compare a b) in H;
        destruct (Pos.compare_spec a b)
    | |- context [Pos.compare_cont Eq ?a ?b] =>
        change (Pos.compare_cont Eq a b) with (Pos.compare a b);
        destruct (Pos.compare_spec a b)
    end;
    simpl in *; try discriminate; try reflexivity; subst; try lia.
Qed.

Lemma leb_trans (x y z : float) :
  (x <=? y) = true -> (y <=? z) = true -> (x <=? z) = true.
Proof. rewrite !FloatAxioms.leb_spec. apply SFleb_trans. Qed.

Lemma leb_ltb_trans (x y z : float) :
  (x <=? y) = true -> (y <? z) = true -> (x <? z) = true.
Proof.
  rewrite leb_cases. intros Hxy Hyz.
  apply orb_true_iff in Hxy as [Hxy | Hxy].
  - exact (ltb_trans _ _ _ Hxy Hyz).
  - exact (eqb_ltb _ _ _ Hxy Hyz).
Qed.

(** X12.  [find_latest_csv] returns nothing exactly when the directory is
    missing or lists no file.  Otherwise it returns one of the listed
    files, and no listed file is newer; when no time stamp is NaN, its time
    stamp is at or above that of every listed file. *)
Theorem latest_csv_is_newest (retailer_dir : option (list File.t)) :
  (find_latest_csv retailer_dir = None
   <-> retailer_dir = None \/ retailer_dir = Some [])
  /\ forall csv_files latest,
       retailer_dir = Some csv_files ->
       find_latest_csv retailer_dir = Some latest ->
       In latest csv_files
       /\ (forall f, In f csv_files ->
             (File.st_mtime latest <? File.st_mtime f) = false)
       /\ ((forall f, In f csv_files -> is_nan (File.st_mtime f) = false) ->
           forall f, In f csv_files ->
             (File.st_mtime f <=? File.st_mtime latest) = true).
Proof.
  split.
  - destruct retailer_dir as [[|f fs]|]; simpl; split; intros H; auto;
      try discriminate H; destruct H as [H | H]; discriminate H.
  - intros csv_files latest -> Hlatest.
    destruct csv_files as [|f fs]; [discriminate Hlatest|].
    simpl in Hlatest. injection Hlatest as <-.
    destruct (max_from_spec File.st_mtime f fs) as [Hin Hup].
    split; [exact Hin|]. split; [exact Hup|].
    intros Hnan g Hg. apply max_from_greatest; assumption.
Qed.

(** X12 on a directory with three files. *)
Lemma latest_csv_is_newest_witness :
  let files := [File.mk "2025-05-30_prices.csv" 1748563200;
                File.mk "2025-06-01_prices.csv" 1748736000;
                File.mk "2025-05-31_prices.csv" 1748649600] in
  let latest := File.mk "2025-06-01_prices.csv" 1748736000 in
  find_latest_csv (Some files) = Some latest
  /\ In latest files
  /\ (forall f, In f files -> (File.st_mtime latest <? File.st_mtime f) = false)
  /\ ((forall f, In f files -> is_nan (File.st_mtime f) = false) ->
      forall f, In f files -> (File.st_mtime f <=? File.st_mtime latest) = true).
Proof.
  intros files latest. split; [reflexivity|].
  exact (proj2 (latest_csv_is_newest (Some files)) files latest
               eq_refl eq_refl).
Defined.

Lemma records_of_emitted (groups : dict (list Product)) :
  flat_map (fun item => all_prices (snd item)) (flat_map emit groups)
  = flat_map snd groups.
Proof.
  induction groups as [|[k ps] groups IH]; simpl; [reflexivity|].
  rewrite flat_map_app, IH. destruct ps; simpl; rewrite ?app_nil_r;
    reflexivity.
Qed.

Lemma set_appends (k : string) (p : Product) (groups : dict (list Product)) :
  Permutation
    (flat_map snd (set k (get_default k [] groups ++ [p]) groups))
    (p :: flat_map snd groups).
Proof.
  unfold get_default.
  induction groups as [|[k' ps] groups IH]; simpl; [reflexivity|].
  destruct (String.eqb k k'); simpl.
  - rewrite <- app_assoc. symmetry. apply Permutation_middle.
  - rewrite IH. symmetry. apply Permutation_middle.
Qed.

Lemma group_step_adds (groups : dict (list Product)) (p : Product) :
  Permutation (flat_map snd (group_step groups p)) (p :: flat_map snd groups).
Proof.
  unfold group_step, mem.
  destruct (get (normalized_name p) groups) eqn:Hg; simpl.
  - apply set_appends.
  - rewrite set_appends, (set_new _ _ _ Hg), flat_map_app. simpl.
    rewrite app_nil_r. reflexivity.
Qed.

Lemma group_fold_adds (ps : list Product) : forall groups,
  Permutation (flat_map snd (fold_left group_step ps groups))
              (flat_map snd groups ++ ps).
Proof.
  induction ps as [|p ps IH]; intros groups; simpl.
  - rewrite app_nil_r. reflexivity.
  - rewrite IH, group_step_adds. apply Permutation_middle.
Qed.

Lemma flat_map_at_least {A B} (f : A -> list B) (l : list A) :
  (forall x, In x l -> f x <> []) ->
  (List.length l <= List.length (flat_map f l))%nat.
Proof.
  induction l as [|x l IH]; simpl; intros H; [lia|].
  rewrite length_app. specialize (IH (fun y Hy => H y (or_intror Hy))).
  specialize (H x (or_introl eq_refl)). destruct (f x); [congruence|].
  simpl. lia.
Qed.

(** X13.  The groups of [find_best_prices] hold the input records, each of
    them once: the records of all the groups are the input rearranged.  So
    the sizes of the groups add up to the number of records, and there are
    at most as many groups as records. *)
Theorem groups_hold_every_record_once (all_products : list Product) :
  Permutation
    (flat_map (fun item => all_prices (snd item))
              (find_best_prices all_products))
    all_products
  /\ (List.length (find_best_prices all_products)
      <= List.length all_products)%nat.
Proof.
  assert (Hperm : Permutation
    (flat_map (fun item => all_prices (snd item))
              (find_best_prices all_products))
    all_products).
  { rewrite find_best_prices_emit, records_of_emitted.
    apply (group_fold_adds all_products []). }
  split; [exact Hperm|].
  rewrite <- (Permutation_length Hperm). apply flat_map_at_least.
  intros [k r] Hin. apply find_best_prices_In in Hin as (p0 & rest & _ & ->).
  discriminate.
Qed.

(** X14.  The dictionary of [find_best_prices] is looked up by normalised
    name: the key of a record's normalised name leads to the group that
    holds the record, and a key that is the normalised name of no record is
    absent. *)
Theorem lookup_by_normalized_name (all_products : list Product) :
  (forall p, In p all_products ->
     exists result,
       get (normalized_name p) (find_best_prices all_products) = Some result
       /\ In p (all_prices result))
  /\ (forall name,
        get name (find_best_prices all_products) = None
        <-> forall p, In p all_products -> normalized_name p <> name).
Proof.
  split.
  - intros p Hp.
    destruct (member_group all_products p Hp) as (p0 & rest & _ & Hin & Hres).
    exists (best_price_of p0 rest). split; [|exact Hin].
    apply In_get; [apply find_best_prices_NoDup | exact Hres].
  - intros name. split.
    + intros Hnone p Hp Hname.
      destruct (member_group all_products p Hp) as (p0 & rest & _ & _ & Hres).
      rewrite Hname in Hres.
      apply (In_get _ _ _ (find_best_prices_NoDup all_products)) in Hres.
      congruence.
    + intros Hno.
      destruct (get name (find_best_prices all_products)) as [r|] eqn:Hg;
        [|reflexivity].
      apply get_In, find_best_prices_In in Hg as (p0 & rest & Hgroup & _).
      assert (Hp0 : In p0 (group_of name all_products))
        by (rewrite Hgroup; left; reflexivity).
      apply group_of_In in Hp0 as [Hp0 Hname].
      exfalso. exact (Hno p0 Hp0 Hname).
Qed.

Lemma min_from_map {A} (key : A -> float) (xs : list A) : forall x,
  min_from (fun v => v) (key x) (map key xs) = key (min_from key x xs).
Proof.
  induction xs as [|y xs IH]; intros x; simpl; [reflexivity|].
  unfold min_from in *. simpl.
  destruct (key y <? key x); apply IH.
Qed.

Lemma max_from_map {A} (key : A -> float) (xs : list A) : forall x,
  max_from (fun v => v) (key x) (map key xs) = key (max_from key x xs).
Proof.
  induction xs as [|y xs IH]; intros x; simpl; [reflexivity|].
  unfold max_from in *. simpl.
  destruct (key x <? key y); apply IH.
Qed.

Lemma all_priced (products : list Product) :
  (forall p, In p products -> (0 <? current_price p) = true) ->
  priced products = products.
Proof.
  unfold priced. induction products as [|p ps IH]; simpl; intros H;
    [reflexivity|].
  rewrite (H p (or_introl eq_refl)), IH; [reflexivity|].
  intros q Hq. apply H. right. exact Hq.
Qed.

(** X15.  In a group whose prices are all above 0, the lower bound of
    [price_range] is the price of [best_product], and the upper bound is
    the price of a record of the group that none exceeds. *)
Theorem range_starts_at_best_price
    (all_products : list Product) (name : string) (result : BestPrice) :
  In (name, result) (find_best_prices all_products) ->
  (forall p, In p (all_prices result) -> (0 <? current_price p) = true) ->
  min (price_range result) = PyFloat (current_price (best_product result))
  /\ exists top,
       In top (all_prices result)
       /\ max (price_range result) = PyFloat (current_price top)
       /\ forall p, In p (all_prices result) ->
            (current_price p <=? current_price top) = true.
Proof.
  intros Hin Hpos. apply find_best_prices_In in Hin as (p0 & rest & _ & ->).
  cbn [all_prices best_product price_range best_price_of] in *.
  change (positive_prices (p0 :: rest))
    with (map current_price (priced (p0 :: rest))).
  rewrite (all_priced _ Hpos). cbn [range_of min max map py_min py_max
    py_min_by py_max_by number_or_zero].
  rewrite min_from_map, max_from_map. split; [reflexivity|].
  exists (max_from current_price p0 rest).
  split; [apply max_from_spec|]. split; [reflexivity|].
  apply max_from_greatest. intros p Hp.
  apply (ltb_not_nan _ _ (Hpos p Hp)).
Qed.

(** X15 on [three_apples]. *)
Lemma range_starts_at_best_price_witness :
  let result :=
    mkBest (sample "Apples" 19.99 "Shoprite") three_apples
           (PyFloat 7) (mkRange (PyFloat 19.99) (PyFloat 26.99)) in
  In ("apples"%string, result) (find_best_prices three_apples)
  /\ min (price_range result) = PyFloat (current_price (best_product result))
  /\ exists top,
       In top (all_prices result)
       /\ max (price_range result) = PyFloat (current_price top)
       /\ forall p, In p (all_prices result) ->
            (current_price p <=? current_price top) = true.
Proof.
  intros result.
  assert (Hin : In ("apples"%string, result) (find_best_prices three_apples))
    by (vm_compute; left; reflexivity).
  split; [exact Hin|].
  apply (range_starts_at_best_price three_apples "apples"%string result Hin).
  intros p [<- | [<- | [<- | []]]]; reflexivity.
Defined.

(** X16.  In a group without NaN that has a record priced at or below 0,
    which is the case of a record whose price did not parse, the
    [best_product] is such a record: its price is at or below 0, it is not
    one of the records that [savings] and [price_range] are computed from,
    and the lower bound of [price_range] is either the integer 0 (no price
    above 0 in the group) or a price strictly above that of
    [best_product]. *)
Theorem unpriced_record_wins
    (all_products : list Product) (name : string) (result : BestPrice)
    (q : Product) :
  In (name, result) (find_best_prices all_products) ->
  (forall p, In p (all_prices result) -> is_nan (current_price p) = false) ->
  In q (all_prices result) ->
  (current_price q <=? 0) = true ->
  (current_price (best_product result) <=? 0) = true
  /\ ~ In (best_product result) (priced (all_prices result))
  /\ (min (price_range result) = PyInt 0
      \/ exists lowest,
           min (price_range result) = PyFloat lowest
           /\ (current_price (best_product result) <? lowest) = true).
Proof.
  intros Hin Hnan Hq Hq0.
  apply find_best_prices_In in Hin as (p0 & rest & _ & ->).
  cbn [all_prices best_product price_range best_price_of] in *.
  set (best := min_from current_price p0 rest).
  assert (Hbest : (current_price best <=? 0) = true).
  { apply (leb_trans _ (current_price q)); [|exact Hq0].
    apply min_from_least; assumption. }
  assert (Hnot : (0 <? current_price best) = false)
    by (apply leb_not_ltb; exact Hbest).
  split; [exact Hbest|]. split.
  - unfold priced. rewrite filter_In. intros [_ H]. congruence.
  - unfold range_of. cbn [min].
    destruct (positive_prices (p0 :: rest)) as [|m0 more] eqn:Hprices;
      [left; reflexivity|].
    cbn [py_min py_min_by number_or_zero]. right.
    exists (min_from (fun x => x) m0 more). split; [reflexivity|].
    assert (Hm : In (min_from (fun x => x) m0 more) (positive_prices (p0 :: rest)))
      by (rewrite Hprices; apply (min_from_In (fun x => x))).
    apply positive_prices_In in Hm as (p & _ & _ & Hpos).
    apply (leb_ltb_trans _ 0); assumption.
Qed.

(** X16 on the file whose first row has the price cell [N/A]. *)
Lemma unpriced_record_wins_witness :
  exists result,
    In ("bananas"%string, result)
       (find_best_prices (load_csv_data bananas_file))
    /\ best_product result = load_row bad_row
    /\ (current_price (best_product result) <=? 0) = true
    /\ ~ In (best_product result) (priced (all_prices result))
    /\ (min (price_range result) = PyInt 0
        \/ exists lowest,
             min (price_range result) = PyFloat lowest
             /\ (current_price (best_product result) <? lowest) = true).
Proof.
  set (result := best_price_of (load_row bad_row)
                   [load_row (csv "bananas" (Some "17.99"%string) "Shoprite")]).
  assert (Hin : In ("bananas"%string, result)
                   (find_best_prices (load_csv_data bananas_file)))
    by (vm_compute; left; reflexivity).
  exists result. split; [exact Hin|]. split; [reflexivity|].
  apply (unpriced_record_wins (load_csv_data bananas_file) "bananas"%string
           result (load_row bad_row) Hin).
  - intros p [<- | [<- | []]]; reflexivity.
  - left. reflexivity.
  - reflexivity.
Defined.

End Groups.

(* ================================================================== *)
(** * The presentation data and the integration report *)

Section Presentation.
Import PyStr PyNum PyFloat PyDict PyMore Integrator IntegratorRest.

Lemma of_int_inj (a b : Z) : of_int a = of_int b -> a = b.
Proof.
  unfold of_int. intros H.
  assert (Hnil : forall z, Z.to_int z <> Decimal.Pos Decimal.Nil
                           /\ Z.to_int z <> Decimal.Neg Decimal.Nil).
  { intros z. split; intros E;
      assert (Hz : z = 0) by (rewrite <- (DecimalZ.of_to z), E; reflexivity);
      subst z; discriminate E. }
  assert (H' : Some (Z.to_int a) = Some (Z.to_int b)).
  { rewrite <- (NilZero.isi (Z.to_int a)) by apply Hnil.
    rewrite <- (NilZero.isi (Z.to_int b)) by apply Hnil.
    rewrite H. reflexivity. }
  injection H' as H'.
  rewrite <- (DecimalZ.of_to a), <- (DecimalZ.of_to b), H'. reflexivity.
Qed.

Lemma firstn_In {A} (n : nat) (l : list A) (x : A) :
  In x (firstn n l) -> In x l.
Proof.
  intros H. rewrite <- (firstn_skipn n l). apply in_or_app. left. exact H.
Qed.

Lemma of_nat_digits (n : nat) :
  all_chars is_digit (of_int (Z.of_nat n)) = true.
Proof.
  unfold of_int. destruct (Z.of_nat n) as [|p|p] eqn:Hn; [reflexivity| |lia].
  simpl. destruct (Pos.to_uint p); try apply uint_digits. reflexivity.
Qed.

Lemma dash_split (a a' u v : string) :
  all_chars is_digit a = true -> all_chars is_digit a' = true ->
  (a ++ "-" ++ u)%string = (a' ++ "-" ++ v)%string -> a = a' /\ u = v.
Proof.
  revert a'. induction a as [|c r IH]; intros [|c' r']; simpl;
    intros Ha Ha' H.
  - injection H as ->. split; reflexivity.
  - injection H as <- _. discriminate Ha'.
  - injection H as -> _. discriminate Ha.
  - injection H as -> H.
    apply andb_true_iff in Ha as [_ Ha]. apply andb_true_iff in Ha' as [_ Ha'].
    destruct (IH r' Ha Ha' H) as [-> ->]. split; reflexivity.
Qed.

Lemma prices_of_length products : forall product_id price_id,
  List.length (prices_of product_id price_id products) = List.length products.
Proof.
  induction products as [|p ps IH]; intros product_id price_id; simpl;
    [reflexivity|].
  rewrite IH. reflexivity.
Qed.

Lemma prices_from_length items : forall product_id price_id,
  List.length (prices_from product_id price_id items)
  = List.length (flat_map (fun item => all_prices (snd item)) items).
Proof.
  induction items as [|item rest IH]; intros product_id price_id; simpl;
    [reflexivity|].
  rewrite !length_app, prices_of_length, IH. reflexivity.
Qed.

Lemma prices_of_nth products : forall product_id (k n : nat) e,
  nth_error (prices_of product_id (Z.of_nat k) products) n = Some e ->
  PriceEntry.id e
  = (PriceEntry.productId e ++ "-" ++ of_int (Z.of_nat (k + n)))%string.
Proof.
  induction products as [|p ps IH]; intros product_id k n e; simpl.
  - destruct n; discriminate.
  - destruct n as [|n]; simpl.
    + intros [= <-]. simpl. rewrite Nat.add_0_r. reflexivity.
    + intros H. replace (Z.of_nat k + 1) with (Z.of_nat (S k)) in H by lia.
      rewrite (IH _ _ _ _ H).
      replace (S k + n)%nat with (k + S n)%nat by lia. reflexivity.
Qed.

Lemma prices_from_nth items : forall product_id (k n : nat) e,
  nth_error (prices_from product_id (Z.of_nat k) items) n = Some e ->
  PriceEntry.id e
  = (PriceEntry.productId e ++ "-" ++ of_int (Z.of_nat (k + n)))%string.
Proof.
  induction items as [|item rest IH]; intros product_id k n e; simpl.
  - destruct n; discriminate.
  - set (ps := all_prices (snd item)).
    destruct (Nat.lt_ge_cases n (List.length ps)) as [Hlt | Hge].
    + rewrite nth_error_app1 by (rewrite prices_of_length; exact Hlt).
      apply prices_of_nth.
    + rewrite nth_error_app2 by (rewrite prices_of_length; exact Hge).
      rewrite prices_of_length. unfold len.
      replace (Z.of_nat k + Z.of_nat (List.length ps))
        with (Z.of_nat (k + List.length ps)) by lia.
      intros H. rewrite (IH _ _ _ _ H).
      replace (k + List.length ps + (n - List.length ps))%nat
        with (k + n)%nat by lia.
      reflexivity.
Qed.

Lemma prices_of_product_id products : forall product_id price_id e,
  In e (prices_of product_id price_id products) ->
  PriceEntry.productId e = of_int product_id.
Proof.
  induction products as [|p ps IH]; intros product_id price_id e; simpl;
    [intros []|].
  intros [<- | H]; [reflexivity | exact (IH _ _ _ H)].
Qed.

Lemma prices_from_product_id items : forall (m : nat) price_id e,
  In e (prices_from (Z.of_nat m) price_id items) ->
  exists n : nat, PriceEntry.productId e = of_int (Z.of_nat n).
Proof.
  induction items as [|item rest IH]; intros m price_id e; simpl;
    [intros []|].
  rewrite in_app_iff. intros [H | H].
  - exists m. exact (prices_of_product_id _ _ _ _ H).
  - replace (Z.of_nat m + 1) with (Z.of_nat (S m)) in H by lia.
    exact (IH _ _ _ H).
Qed.

Lemma summary_totals now best_prices out :
  generate_mock_data_update now best_prices = Some out ->
  Summary.totalProducts (MockData.summary out) = len (MockData.products out)
  /\ Summary.totalPrices (MockData.summary out) = len (MockData.prices out).
Proof.
  unfold generate_mock_data_update.
  destruct (average_savings best_prices); [|discriminate].
  intros [= <-]. split; reflexivity.
Qed.

(** X17.  The price entries of the adapter are numbered in one run over all
    products: the entry at position [n], counted from 1, has the id
    [<productId>-<n>].  The ids of the price entries are pairwise distinct,
    and so are the ids of the product entries.  [totalProducts] is the
    number of groups mapped, 20 at most, and [totalPrices] the number of
    their records. *)
Theorem price_entries_are_numbered (now : string)
                                   (best_prices : dict BestPrice) :
  exists out,
    generate_mock_data_update now best_prices = Some out
    /\ (forall (n : nat) e,
          nth_error (MockData.prices out) n = Some e ->
          PriceEntry.id e
          = (PriceEntry.productId e ++ "-" ++ of_int (Z.of_nat (S n)))%string)
    /\ NoDup (map PriceEntry.id (MockData.prices out))
    /\ NoDup (map ProductEntry.id (MockData.products out))
    /\ Summary.totalProducts (MockData.summary out)
       = Z.of_nat (Nat.min 20 (List.length best_prices))
    /\ Summary.totalPrices (MockData.summary out)
       = len (mapped_records best_prices).
Proof.
  destruct (generate_total now best_prices) as [out Hout].
  exists out. split; [exact Hout|].
  destruct (generate_products _ _ _ Hout) as [Hp Hq].
  destruct (summary_totals _ _ _ Hout) as [Htp Htq].
  assert (Hnth : forall (n : nat) e,
            nth_error (MockData.prices out) n = Some e ->
            PriceEntry.id e
            = (PriceEntry.productId e ++ "-" ++ of_int (Z.of_nat (S n)))%string).
  { intros n e H. rewrite Hq in H.
    exact (prices_from_nth _ 1 1%nat n e H). }
  split; [exact Hnth|]. split; [|split; [|split]].
  - apply NoDup_nth_error. intros i j Hi Heq.
    rewrite length_map in Hi. rewrite !nth_error_map in Heq.
    destruct (nth_error (MockData.prices out) i) as [ei|] eqn:Hei;
      [|apply nth_error_None in Hei; lia].
    destruct (nth_error (MockData.prices out) j) as [ej|] eqn:Hej;
      [|discriminate Heq].
    simpl in Heq. injection Heq as Heq.
    rewrite (Hnth _ _ Hei), (Hnth _ _ Hej) in Heq.
    assert (Hdigits : forall n e, nth_error (MockData.prices out) n = Some e ->
              all_chars is_digit (PriceEntry.productId e) = true).
    { intros n e H. apply nth_error_In in H. rewrite Hq in H.
      destruct (prices_from_product_id _ 1%nat _ _ H) as [m ->].
      apply of_nat_digits. }
    apply dash_split in Heq as [_ Heq]; eauto.
    apply of_int_inj in Heq. lia.
  - rewrite Hp, (products_from_ids _ 1%nat).
    apply Finite.Injective_map_NoDup; [|apply seq_NoDup].
    intros a b H. apply of_int_inj in H. lia.
  - rewrite Htp, Hp. unfold len.
    rewrite products_from_length, length_firstn. reflexivity.
  - rewrite Htq, Hq. unfold len, mapped_records.
    rewrite prices_from_length. reflexivity.
Qed.

Lemma replace_no_underscore (s : string) :
  all_chars no_underscore (replace_char "_" "-" s) = true.
Proof.
  induction s as [|c r IH]; simpl; [reflexivity|].
  destruct (Ascii.eqb c "_") eqn:Hc; simpl; [exact IH|].
  unfold no_underscore at 1. rewrite Hc, IH. reflexivity.
Qed.

Lemma retailer_tables_agree (retailer_name : string) :
  (get_default retailer_name "unknown" retailer_mapping = "unknown"%string
   <-> get retailer_name colors = None)
  /\ (get_retailer_color retailer_name = "#6B7280"%string
      <-> get retailer_name colors = None).
Proof.
  unfold get_retailer_color, get_default, retailer_mapping, colors. simpl.
  repeat match goal with
  | |- context [String.eqb retailer_name ?k] =>
      destruct (String.eqb retailer_name k)
  end; split; split; intros H; try reflexivity; discriminate H.
Qed.

Lemma prices_of_In products : forall product_id price_id e,
  In e (prices_of product_id price_id products) ->
  exists p k, In p products /\ e = price_entry product_id k p.
Proof.
  induction products as [|p ps IH]; intros product_id price_id e; simpl;
    [intros []|].
  intros [<- | H].
  - exists p, price_id. split; [left|]; reflexivity.
  - destruct (IH _ _ _ H) as (q & k & Hq & ->).
    exists q, k. split; [right; exact Hq | reflexivity].
Qed.

Lemma prices_from_In items : forall product_id price_id e,
  In e (prices_from product_id price_id items) ->
  exists p i k,
    In p (flat_map (fun item => all_prices (snd item)) items)
    /\ e = price_entry i k p.
Proof.
  induction items as [|item rest IH]; intros product_id price_id e; simpl;
    [intros []|].
  rewrite in_app_iff. intros [H | H].
  - destruct (prices_of_In _ _ _ _ H) as (p & k & Hp & ->).
    exists p, product_id, k. split; [|reflexivity].
    apply in_or_app. left. exact Hp.
  - destruct (IH _ _ _ H) as (p & i & k & Hp & ->).
    exists p, i, k. split; [|reflexivity].
    apply in_or_app. right. exact Hp.
Qed.

(** X18.  Every price entry of the adapter describes a record of one of the
    groups mapped: it has the record's retailer name, price and time stamp.
    Its availability holds no underscore, and it is one of the four values
    of the presentation layer when the record's is one of the four values
    that the validator accepts.  The retailer id is ["unknown"] exactly when
    the colour is the default ["#6B7280"], which is when the retailer is
    none of the five that the tables know; and the single location is named
    after the retailer id. *)
Theorem price_entries_describe_records (now : string)
                                       (best_prices : dict BestPrice) :
  exists out,
    generate_mock_data_update now best_prices = Some out
    /\ forall e, In e (MockData.prices out) ->
         exists p,
           In p (mapped_records best_prices)
           /\ Retailer.name (PriceEntry.retailer e) = retailer p
           /\ PriceEntry.price e = current_price p
           /\ PriceEntry.lastUpdated e = last_updated p
           /\ all_chars no_underscore (PriceEntry.availability e) = true
           /\ (In (availability_status p) Extractor.availability_enum ->
               In (PriceEntry.availability e) dashed_enum)
           /\ (Retailer.id (PriceEntry.retailer e) = "unknown"%string
               <-> Retailer.color (PriceEntry.retailer e) = "#6B7280"%string)
           /\ (Retailer.id (PriceEntry.retailer e) = "unknown"%string
               <-> ~ In (retailer p) (keys retailer_mapping))
           /\ map Location.id (Retailer.locations (PriceEntry.retailer e))
              = [(Retailer.id (PriceEntry.retailer e) ++ "-1")%string].
Proof.
  destruct (generate_total now best_prices) as [out Hout].
  exists out. split; [exact Hout|].
  destruct (generate_products _ _ _ Hout) as [_ Hq].
  intros e He. rewrite Hq in He.
  destruct (prices_from_In _ _ _ _ He) as (p & i & k & Hp & ->).
  exists p. split; [exact Hp|]. cbn [price_entry PriceEntry.retailer
    PriceEntry.price PriceEntry.lastUpdated PriceEntry.availability
    Retailer.name Retailer.id Retailer.color Retailer.locations map
    Location.id].
  destruct (retailer_tables_agree (retailer p)) as [Hid Hcolor].
  repeat split; try reflexivity.
  - apply replace_no_underscore.
  - intros [<- | [<- | [<- | [<- | []]]]]; simpl; auto.
  - intros H. apply Hcolor, Hid, H.
  - intros H. apply Hid, Hcolor, H.
  - intros H Hin. apply Hid in H. apply get_None_keys in H. exact (H Hin).
  - intros H. apply Hid. apply get_None_keys. exact H.
Qed.

Lemma fold_deal_step items : forall best_deals,
  fold_left deal_step items best_deals
  = best_deals ++ map deal_of (filter pays items).
Proof.
  induction items as [|[product_name data] rest IH]; intros best_deals;
    cbn [fold_left filter].
  - simpl. rewrite app_nil_r. reflexivity.
  - rewrite IH. unfold deal_step, pays at 2. cbn [snd].
    destruct (gtb (savings data) (PyInt 0)); [|reflexivity].
    rewrite <- app_assoc. reflexivity.
Qed.

Lemma best_deals_closed sorted_deals :
  best_deals sorted_deals
  = map deal_of (filter pays (firstn 10 sorted_deals)).
Proof. unfold best_deals. rewrite fold_deal_step. reflexivity. Qed.

Lemma filter_length_le {A} (f : A -> bool) (l : list A) :
  (List.length (filter f l) <= List.length l)%nat.
Proof.
  induction l as [|x l IH]; simpl; [lia|].
  destruct (f x); simpl; lia.
Qed.

Lemma NoDup_map_filter {A B} (g : A -> B) (f : A -> bool) (l : list A) :
  NoDup (map g l) -> NoDup (map g (filter f l)).
Proof.
  induction l as [|x l IH]; simpl; intros H; [exact H|].
  inversion H as [|? ? Hx Hl]; subst.
  destruct (f x); simpl; [|exact (IH Hl)].
  constructor; [|exact (IH Hl)].
  intros Hin. apply Hx. apply in_map_iff in Hin as (y & Hy & Hin).
  apply filter_In in Hin as [Hin _].
  apply in_map_iff. exists y. split; assumption.
Qed.

Lemma NoDup_map_firstn {A B} (g : A -> B) (n : nat) (l : list A) :
  NoDup (map g l) -> NoDup (map g (firstn n l)).
Proof.
  revert l. induction n as [|n IH]; intros [|x l] H; simpl; try constructor.
  - inversion H as [|? ? Hx Hl]; subst.
    intros Hin. apply Hx. apply in_map_iff in Hin as (y & Hy & Hin).
    apply in_map_iff. exists y. split; [exact Hy|].
    exact (firstn_In _ _ _ Hin).
  - inversion H; subst. apply IH. assumption.
Qed.

(** X19.  Whatever the order is that [sorted] gives to the items of
    [best_prices], the report states at most ten deals.  Every deal is the
    group of a key of [best_prices], with the price and the retailer of the
    group's [best_product], and its savings are above 0.  When
    [best_prices] has at most ten keys, every group with savings above 0
    is stated; and no two deals are about the same key. *)
Theorem best_deals_are_savings
    (best_prices : dict BestPrice) (sorted_deals : list (string * BestPrice)) :
  Permutation sorted_deals best_prices ->
  (List.length (best_deals sorted_deals) <= 10)%nat
  /\ (forall d, In d (best_deals sorted_deals) ->
        gtb (Deal.savings d) (PyInt 0) = true
        /\ exists data,
             In (Deal.product d, data) best_prices
             /\ d = deal_of (Deal.product d, data))
  /\ ((List.length best_prices <= 10)%nat ->
      forall item, In item best_prices -> pays item = true ->
        In (deal_of item) (best_deals sorted_deals))
  /\ (NoDup (keys best_prices) ->
      NoDup (map Deal.product (best_deals sorted_deals))).
Proof.
  intros Hperm. rewrite best_deals_closed.
  split; [|split; [|split]].
  - rewrite length_map.
    etransitivity; [apply filter_length_le|].
    rewrite length_firstn. apply Nat.le_min_l.
  - intros d Hd. apply in_map_iff in Hd as ([k data] & <- & Hin).
    apply filter_In in Hin as [Hin Hpays].
    split; [exact Hpays|]. exists data. split; [|reflexivity].
    apply (Permutation_in _ Hperm). exact (firstn_In _ _ _ Hin).
  - intros Hlen item Hin Hpays. apply in_map. apply filter_In.
    split; [|exact Hpays].
    rewrite firstn_all2
      by (rewrite (Permutation_length Hperm); exact Hlen).
    apply (Permutation_in _ (Permutation_sym Hperm)). exact Hin.
  - intros Hkeys. rewrite map_map.
    change (fun x => Deal.product (deal_of x))
      with (@fst string BestPrice).
    apply NoDup_map_filter, NoDup_map_firstn.
    apply (Permutation_NoDup (Permutation_map fst (Permutation_sym Hperm))).
    exact Hkeys.
Qed.

(** X19 on the two groups of [tied_bananas], the one with savings first:
    the group without savings is not stated. *)
Lemma best_deals_are_savings_witness :
  let best_prices := find_best_prices tied_bananas in
  Permutation best_prices best_prices
  /\ map Deal.product (best_deals best_prices) = ["bananas"%string]
  /\ (List.length (best_deals best_prices) <= 10)%nat
  /\ (forall d, In d (best_deals best_prices) ->
        gtb (Deal.savings d) (PyInt 0) = true
        /\ exists data,
             In (Deal.product d, data) best_prices
             /\ d = deal_of (Deal.product d, data)).
Proof.
  intros best_prices.
  assert (Hperm : Permutation best_prices best_prices)
    by apply Permutation_refl.
  split; [exact Hperm|]. split; [vm_compute; reflexivity|].
  destruct (best_deals_are_savings best_prices best_prices Hperm)
    as (Hlen & Hdeals & _).
  split; [exact Hlen | exact Hdeals].
Defined.

Lemma load_csv_file_rows (rows : list CsvRow) (tail : list Reading) :
  yields_nothing tail ->
  load_csv_file (map RowRead rows ++ tail) = load_csv_data rows.
Proof.
  intros Htail. induction rows as [|row rows IH]; simpl.
  - destruct Htail as [-> | (rest & ->)]; reflexivity.
  - rewrite IH. reflexivity.
Qed.

Lemma load_csv_file_nil (reading : list Reading) :
  load_csv_file reading = [] <-> yields_nothing reading.
Proof.
  unfold yields_nothing. destruct reading as [|[row|] rest]; simpl; split.
  - intros _. left. reflexivity.
  - reflexivity.
  - discriminate.
  - intros [H | (t & H)]; discriminate H.
  - intros _. right. exists rest. reflexivity.
  - reflexivity.
Qed.

Lemma load_csv_file_length (reading : list Reading) :
  (List.length (load_csv_file reading) <= List.length reading)%nat.
Proof.
  induction reading as [|[row|] rest IH]; simpl; lia.
Qed.

Lemma fold_merge_step latest : forall all_products,
  fold_left merge_step latest all_products
  = all_products
    ++ flat_map (fun file => load_csv_file (rows_of file)) latest.
Proof.
  induction latest as [|[reading|] rest IH]; intros all_products; simpl.
  - rewrite app_nil_r. reflexivity.
  - rewrite IH, app_assoc. reflexivity.
  - apply IH.
Qed.

(** X20.  [load_csv_data] returns the rows that the reading yields before
    it ends or an exception reaches the outer handler, a row whose price
    did not parse included, and none of what follows.  The merge of
    [integrate_data] puts these together in the order of the retailers; a
    retailer without a file adds nothing.  So the merge is empty, which is
    when the integration gives up, exactly when every retailer has no file
    or a file whose reading yields no row; and when no reading raises, the
    merge keeps every row of every latest file. *)
Theorem merge_keeps_the_rows_read :
  (forall (rows : list CsvRow) (tail : list Reading),
     yields_nothing tail ->
     load_csv_file (map RowRead rows ++ tail) = load_csv_data rows)
  /\ (forall latest : list (option (list Reading)),
        merge_latest latest
        = flat_map (fun file => load_csv_file (rows_of file)) latest
        /\ (List.length (merge_latest latest)
            <= List.length (flat_map rows_of latest))%nat
        /\ (merge_latest latest = []
            <-> forall reading, In (Some reading) latest ->
                  yields_nothing reading))
  /\ (forall files : list (option (list CsvRow)),
        merge_latest (map (option_map (map RowRead)) files)
        = load_csv_data (flat_map rows_of files)).
Proof.
  assert (Hmerge : forall latest,
            merge_latest latest
            = flat_map (fun file => load_csv_file (rows_of file)) latest)
    by (intros latest; unfold merge_latest; rewrite fold_merge_step;
        reflexivity).
  split; [exact load_csv_file_rows|]. split.
  - intros latest. split; [apply Hmerge|]. rewrite Hmerge. split.
    + induction latest as [|file rest IH]; simpl; [lia|].
      rewrite !length_app.
      pose proof (load_csv_file_length (rows_of file)). lia.
    + split.
      * intros Hnil reading Hin. apply load_csv_file_nil.
        destruct (load_csv_file reading) as [|p ps] eqn:Hload; [reflexivity|].
        assert (Hp : In p (flat_map (fun file => load_csv_file (rows_of file))
                                    latest)).
        { apply in_flat_map. exists (Some reading). split; [exact Hin|].
          simpl. rewrite Hload. left. reflexivity. }
        rewrite Hnil in Hp. destruct Hp.
      * intros Hall.
        destruct (flat_map (fun file => load_csv_file (rows_of file)) latest)
          as [|p ps] eqn:Hflat; [reflexivity|].
        assert (Hp : In p (flat_map (fun file => load_csv_file (rows_of file))
                                    latest))
          by (rewrite Hflat; left; reflexivity).
        apply in_flat_map in Hp as ([reading|] & Hin & Hp); [|destruct Hp].
        simpl in Hp.
        rewrite (proj2 (load_csv_file_nil reading) (Hall reading Hin)) in Hp.
        destruct Hp.
  - intros files. rewrite Hmerge. unfold load_csv_data.
    induction files as [|[rows|] rest IH]; simpl; [reflexivity| |exact IH].
    rewrite map_app, <- IH. f_equal.
    rewrite <- (app_nil_r (map RowRead rows)).
    apply load_csv_file_rows. left. reflexivity.
Qed.

End Presentation.

(* ================================================================== *)
(** * Aggregating what was aggregated *)

Section Regrouping.
Import PyStr PyNum PyFloat PyDict PyMore Integrator IntegratorRest.

Lemma dict_ext {V} (d : dict V) : forall d' : dict V,
  keys d = keys d' -> NoDup (keys d) ->
  (forall k, get k d = get k d') -> d = d'.
Proof.
  induction d as [|[k v] r IH]; intros [|[k' v'] r']; simpl;
    intros Hkeys Hnodup Hget; try discriminate Hkeys; [reflexivity|].
  injection Hkeys as <- Hkeys. inversion Hnodup as [|? ? Hk Hr]; subst.
  assert (Hv : v = v').
  { specialize (Hget k). rewrite String.eqb_refl in Hget.
    injection Hget as ->. reflexivity. }
  subst v'. f_equal. apply IH; [exact Hkeys | exact Hr|].
  intros k0. specialize (Hget k0).
  destruct (String.eqb k0 k) eqn:Hk0; [|exact Hget].
  apply String.eqb_eq in Hk0. subst k0.
  transitivity (@None V); [|symmetry].
  - apply get_None_keys. exact Hk.
  - apply get_None_keys. unfold keys in *. rewrite <- Hkeys. exact Hk.
Qed.

Lemma get_find_best_prices all k :
  get k (find_best_prices all)
  = match group_of k all with
    | [] => None
    | p0 :: rest => Some (best_price_of p0 rest)
    end.
Proof.
  destruct (group_of k all) as [|p0 rest] eqn:Hgroup.
  - destruct (get k (find_best_prices all)) as [r|] eqn:Hget; [|reflexivity].
    apply get_In, find_best_prices_In in Hget as (q0 & more & Hq & _).
    rewrite Hgroup in Hq. discriminate Hq.
  - apply In_get; [apply find_best_prices_NoDup|].
    apply find_best_prices_In. exists p0, rest. split; [exact Hgroup|reflexivity].
Qed.

Lemma find_best_prices_keyed all : keyed (find_best_prices all).
Proof.
  intros k r Hin. apply find_best_prices_In in Hin as (p0 & rest & Hgroup & ->).
  cbn [all_prices best_price_of]. split; [discriminate|].
  intros p Hp. rewrite <- Hgroup in Hp. unfold group_of in Hp.
  apply filter_In in Hp as [_ Hp]. apply String.eqb_eq. exact Hp.
Qed.

Lemma existsb_eqb_In k seen :
  existsb (String.eqb k) seen = true <-> In k seen.
Proof.
  rewrite existsb_exists. split.
  - intros (x & Hx & Heq). apply String.eqb_eq in Heq. subst. exact Hx.
  - intros H. exists k. split; [exact H | apply String.eqb_refl].
Qed.

Lemma first_seen_skip k seen ps rest :
  (forall p : Product, In p ps -> normalized_name p = k) -> In k seen ->
  first_seen seen (map normalized_name (ps ++ rest))
  = first_seen seen (map normalized_name rest).
Proof.
  intros Hkey Hseen. induction ps as [|p ps IH]; simpl; [reflexivity|].
  rewrite (Hkey p (or_introl eq_refl)).
  rewrite (proj2 (existsb_eqb_In k seen) Hseen).
  apply IH. intros q Hq. apply Hkey. right. exact Hq.
Qed.

Lemma first_seen_regrouped (l : dict BestPrice) : forall seen,
  keyed l -> NoDup (seen ++ keys l) ->
  first_seen seen
    (map normalized_name (flat_map (fun item => all_prices (snd item)) l))
  = keys l.
Proof.
  induction l as [|[k r] l IH]; intros seen Hkeyed Hnodup; simpl;
    [reflexivity|].
  destruct (Hkeyed k r (or_introl eq_refl)) as [Hne Hkey].
  destruct (all_prices r) as [|p ps] eqn:Hps; [contradiction|].
  cbn [app map first_seen]. rewrite (Hkey p (or_introl eq_refl)).
  assert (Hfresh : existsb (String.eqb k) seen = false).
  { destruct (existsb (String.eqb k) seen) eqn:He; [|reflexivity].
    apply existsb_eqb_In in He. simpl in Hnodup.
    apply NoDup_remove_2 in Hnodup. exfalso. apply Hnodup.
    apply in_or_app. left. exact He. }
  rewrite Hfresh. f_equal.
  rewrite first_seen_skip with (k := k).
  - apply IH.
    + intros k0 r0 Hin. apply (Hkeyed k0 r0). right. exact Hin.
    + rewrite <- app_assoc. exact Hnodup.
  - intros q Hq. apply Hkey. right. exact Hq.
  - apply in_or_app. right. left. reflexivity.
Qed.

Lemma filter_all {A} (f : A -> bool) (l : list A) :
  (forall x, In x l -> f x = true) -> filter f l = l.
Proof.
  induction l as [|x l IH]; simpl; intros H; [reflexivity|].
  rewrite (H x (or_introl eq_refl)), IH; [reflexivity|].
  intros y Hy. apply H. right. exact Hy.
Qed.

Lemma filter_none {A} (f : A -> bool) (l : list A) :
  (forall x, In x l -> f x = false) -> filter f l = [].
Proof.
  induction l as [|x l IH]; simpl; intros H; [reflexivity|].
  rewrite (H x (or_introl eq_refl)), IH; [reflexivity|].
  intros y Hy. apply H. right. exact Hy.
Qed.

Lemma group_of_regrouped (l : dict BestPrice) (k : string) :
  keyed l -> NoDup (keys l) ->
  group_of k (flat_map (fun item => all_prices (snd item)) l)
  = match get k l with
    | Some r => all_prices r
    | None => []
    end.
Proof.
  induction l as [|[k0 r0] l IH]; intros Hkeyed Hnodup; simpl;
    [reflexivity|].
  destruct (Hkeyed k0 r0 (or_introl eq_refl)) as [_ Hkey].
  inversion Hnodup as [|? ? Hk0 Hl]; subst.
  assert (Hrest : keyed l)
    by (intros k1 r1 Hin; apply (Hkeyed k1 r1); right; exact Hin).
  unfold group_of in *. rewrite filter_app, (IH Hrest Hl).
  destruct (String.eqb k k0) eqn:Hk.
  - apply String.eqb_eq in Hk. subst k0.
    rewrite (proj2 (get_None_keys k l) Hk0), app_nil_r.
    apply filter_all. intros p Hp. apply String.eqb_eq. exact (Hkey p Hp).
  - rewrite filter_none; [reflexivity|].
    intros p Hp. rewrite (Hkey p Hp), String.eqb_sym. exact Hk.
Qed.

(** X21.  Aggregating the records of the groups again, taken group after
    group, gives the same result: the same keys in the same order, and for
    every key the same records, best record, savings and price range. *)
Theorem regrouping_changes_nothing (all_products : list Product) :
  find_best_prices
    (flat_map (fun item => all_prices (snd item))
              (find_best_prices all_products))
  = find_best_prices all_products.
Proof.
  set (best_prices := find_best_prices all_products).
  assert (Hkeyed : keyed best_prices) by apply find_best_prices_keyed.
  assert (Hnodup : NoDup (keys best_prices)) by apply find_best_prices_NoDup.
  apply dict_ext.
  - rewrite find_best_prices_keys. apply first_seen_regrouped; assumption.
  - apply find_best_prices_NoDup.
  - intros k. rewrite get_find_best_prices, group_of_regrouped by assumption.
    unfold best_prices. rewrite get_find_best_prices.
    destruct (group_of k all_products) as [|p0 rest]; reflexivity.
Qed.

End Regrouping.
